(** * Agent Evaluator API: a shallow embedding of [main.py] and [schemas.py]

    The service fetches an agent card (and optionally chat logs) over HTTP
    with bounded retries, derives mock scores from the lengths of the fetched
    texts, stores an evaluation document and renders an HTML report.

    Modelling choices, in one place:
    - Python values are the inductive [value]; a [dict] is a [gmap string value].
    - A Python [float] is idealised as an exact rational [Q].  The scorer only
      produces quotients [k / 100] and the fetcher only scales the backoff by
      powers of two, so no rounding error of the binary format is involved.
      The two places where the range of the format shows are modelled: an int
      too large for a float, and a sleep too long for the clock.
    - A text is a [string]; one character of the model stands for one code
      point, the unit counted by Python's [len].
    - Effects (HTTP GET, [time.sleep], the document store) are threaded through
      a state-and-exception monad [M] over a [World]; what the outside decides
      (responses, store faults, generated ids) is read from an [Env]. *)

From Stdlib Require Import ZArith QArith Qabs Qround Lqa String Ascii.
From stdpp Require Import gmap strings list fin_maps pretty.

#[local] Set Warnings "-register-all".
#[local] Open Scope Z_scope.

(** ** Python values *)

Inductive value : Type :=
| VNone
| VBool (b : bool)
| VInt (z : Z)
| VFloat (q : Q)
| VStr (s : string)
| VOid (hex : string)
| VList (l : list value)
| VDict (d : gmap string value).

Abbreviation dict := (gmap string value).

(** Python truthiness, as used by [if x], [not x] and [x or y]. *)
Definition truthy (v : value) : bool :=
  match v with
  | VNone => false
  | VBool b => b
  | VInt z => negb (z =? 0)
  | VFloat q => negb (Qeq_bool q 0)
  | VStr s => negb (String.eqb s EmptyString)
  | VOid _ => true
  | VList l => match l with [] => false | _ => true end
  | VDict d => negb (bool_decide (d = ∅))
  end.

(** [x or y] *)
Definition py_or (x y : value) : value := if truthy x then x else y.

(** [type(v).__name__], as it shows up in an [AttributeError]. *)
Definition type_name (v : value) : string :=
  match v with
  | VNone => "NoneType"
  | VBool _ => "bool"
  | VInt _ => "int"
  | VFloat _ => "float"
  | VStr _ => "str"
  | VOid _ => "ObjectId"
  | VList _ => "list"
  | VDict _ => "dict"
  end.

(** [d.get(k)] on a dict: a missing key reads as [None]. *)
Definition dict_get (d : dict) (k : string) : value := default VNone (d !! k).

(** [{**d, **u}] and Mongo's [$set]: the entries of [u] win. *)
Definition dict_update (d u : dict) : dict := u ∪ d.

(** ** Exceptions and results *)

Inductive exn : Type :=
| HTTPException (status_code : Z) (detail : string)
| Error (cls : string) (msg : string).

Inductive result (A : Type) : Type :=
| Ok (a : A)
| Raise (e : exn).
Arguments Ok {A} a.
Arguments Raise {A} e.

Definition rbind {A B} (r : result A) (k : A -> result B) : result B :=
  match r with
  | Ok a => k a
  | Raise e => Raise e
  end.

(** ** The world the service runs in *)

(** What one pass through the [try] block of [fetch_with_retries] does at the
    network: [requests.get] followed by [raise_for_status] either hands over a
    response text or raises an exception [e] with [str(e) = msg]. *)
Inductive attempt : Type :=
| Delivered (text : string)
| Failed (msg : string).

(** How the store answers one call: it performs it, or the driver raises.  A
    raising call may or may not have reached the server ([applied]). *)
Inductive db_answer : Type :=
| DbOk
| DbFail (applied : bool) (msg : string).

Record Env : Type := mkEnv {
  db_configured : bool;                 (* [db is not None] *)
  net : nat -> string -> attempt;       (* the n-th GET of this world, by URL *)
  db_answers : nat -> db_answer;        (* the n-th store call of this world *)
  new_oid : nat -> string               (* the ObjectId generated at the n-th store call *)
}.

Inductive event : Type :=
| EvGet (url : string) (timeout : Z)
| EvSleep (secs : Q)
| EvInsert (doc : dict)
| EvUpdate (oid : string) (fields : dict)
| EvFind (oid : string).

Record World : Type := mkWorld {
  store : gmap string dict;   (* collection "evaluation": _id -> fields *)
  n_gets : nat;               (* GET requests issued so far *)
  n_ops : nat;                (* store calls issued so far *)
  log : list event            (* everything done so far, oldest first *)
}.

Definition M (A : Type) : Type := World -> result A * World.

Definition ret {A} (a : A) : M A := fun w => (Ok a, w).
Definition raise {A} (e : exn) : M A := fun w => (Raise e, w).
Definition bind {A B} (c : M A) (k : A -> M B) : M B :=
  fun w => match c w with
           | (Ok a, w') => k a w'
           | (Raise e, w') => (Raise e, w')
           end.

Notation "'let*' x ':=' c 'in' k" := (bind c (fun x => k))
  (at level 10, x pattern, c at level 100, k at level 200).

(** A computation that only returns or raises. *)
Definition lift {A} (r : result A) : M A := fun w => (r, w).

(** [try: body  except HTTPException: on_http  except Exception as e: on_other]:
    an exception raised inside a handler is not caught by its sibling. *)
Definition try_except {A} (body : M A) (on_http : exn -> M A) (on_other : string -> M A) : M A :=
  fun w => match body w with
           | (Ok a, w') => (Ok a, w')
           | (Raise (HTTPException s d), w') => on_http (HTTPException s d) w'
           | (Raise (Error _ msg), w') => on_other msg w'
           end.

(** ** Fetcher ([fetch_with_retries], main.py 26-37) *)

(** [range(n)] *)
Definition py_range (n : Z) : list Z := Z.of_nat <$> seq 0 (Z.to_nat n).

(** [str(last_err)] for [last_err : Optional[Exception]] *)
Definition str_optional (e : option string) : string :=
  match e with
  | Some msg => msg
  | None => "None"
  end.

(** Lines 30-32: one GET with its status check. *)
Definition requests_get (env : Env) (url : string) (timeout : Z) : M attempt :=
  fun w => (Ok (net env (n_gets w) url),
            mkWorld (store w) (S (n_gets w)) (n_ops w) (log w ++ [EvGet url timeout])).

(** The ints that [float(n)] accepts lie below [2^1024 - 2^970] in absolute
    value; from there on the nearest float would be [2^1024]. *)
Definition float_int_bound : Z := 2 ^ 1024 - 2 ^ 970.

(** [x * n] for a float [x] and an int [n]: the int is converted first. *)
Definition float_mul_int (x : Q) (n : Z) : result Q :=
  if Z.abs n <? float_int_bound
  then Ok (x * inject_Z n)%Q
  else Raise (Error "OverflowError" "int too large to convert to float").

(** The range of the clock of [time.sleep] in seconds: it counts nanoseconds
    in a signed 64-bit integer, [2^63 / 10^9]. *)
Definition clock_max : Q := (9223372036854775808 # 1000000000)%Q.

(** [time.sleep(secs)]: the length is converted to the clock first, an
    [OverflowError] when it does not fit, whatever its sign; a negative
    length is then a [ValueError].  Near the end of the clock's range the
    operating system can refuse the wait as well (on Linux an [OSError] once
    the deadline, counted from boot, passes the end of the clock); that
    depends on the machine and is left out here, and the properties of long
    sleeps are stated for lengths up to [sleep_max] below, clear of it. *)
Definition time_sleep (secs : Q) : M unit :=
  fun w => if negb (Qle_bool (Qabs secs) clock_max)
           then (Raise (Error "OverflowError" "timestamp too large to convert to C _PyTime_t"),
                 w)
           else if Qle_bool 0 secs
           then (Ok tt, mkWorld (store w) (n_gets w) (n_ops w) (log w ++ [EvSleep secs]))
           else (Raise (Error "ValueError" "sleep length must be non-negative"), w).

(** The [for attempt in range(max_retries)] loop, with [last_err] carried along;
    running out of attempts reaches line 37. *)
Fixpoint fetch_loop (env : Env) (url : string) (max_retries : Z) (backoff : Q) (timeout : Z)
    (attempts : list Z) (last_err : option string) : M string :=
  match attempts with
  | [] => raise (HTTPException 502
                   ("Failed to fetch " +:+ url +:+ ": " +:+ str_optional last_err))
  | attempt :: rest =>
      let* r := requests_get env url timeout in
      match r with
      | Delivered text => ret text
      | Failed e =>
          let* _ := (if attempt <? max_retries - 1
                     then let* secs := lift (float_mul_int backoff (2 ^ attempt)) in
                          time_sleep secs
                     else ret tt) in
          fetch_loop env url max_retries backoff timeout rest (Some e)
      end
  end.

Definition fetch_with_retries (env : Env) (url : string) (max_retries : Z) (backoff : Q)
    (timeout : Z) : M string :=
  fetch_loop env url max_retries backoff timeout (py_range max_retries) None.

(** The call with every default: [max_retries=3, backoff=0.8, timeout=10]. *)
Definition fetch_default (env : Env) (url : string) : M string :=
  fetch_with_retries env url 3 0.8 10.

(** ** Scorer ([dummy_deepeval], main.py 40-69) *)

(** [len(s)] *)
Definition py_len (s : string) : Z := Z.of_nat (String.length s).

(** [a / b] on two ints: true division, a float. *)
Definition py_truediv (a b : Z) : Q := inject_Z a / inject_Z b.

(** [min(a, b)] and [max(a, b)] of two floats: the first argument is kept
    unless the second is strictly better. *)
Definition py_min (a b : Q) : Q := if Qle_bool a b then a else b.
Definition py_max (a b : Q) : Q := if Qle_bool b a then a else b.

(** Rounding to the nearest integer, ties to the even one. *)
Definition round_half_even (x : Q) : Z :=
  let f := Qfloor x in
  match Qcompare (x - inject_Z f) (1 # 2) with
  | Lt => f
  | Gt => f + 1
  | Eq => if Z.even f then f else f + 1
  end.

(** [round(x, ndigits)] on a float, for [ndigits >= 0]. *)
Definition py_round (x : Q) (ndigits : Z) : Q :=
  let scale := 10 ^ ndigits in
  Qmake (round_half_even (x * inject_Z scale)) (Z.to_pos scale).

(** [round(z, ndigits)] on an int: an int again, unchanged for [ndigits >= 0]. *)
Definition py_round_int (z ndigits : Z) : Z :=
  if 0 <=? ndigits then z
  else let p := 10 ^ (- ndigits) in p * round_half_even (Qmake z (Z.to_pos p)).

(** The inner [norm] of lines 48-49. *)
Definition norm (v : Q) : Q := py_round (py_max 0.0 (py_min 1.0 v)) 2.

Definition dummy_deepeval (agent_card : string) (chat_logs : option string) : dict :=
  let base := Z.max 1 (py_len agent_card) in
  let chat_factor :=
    (match chat_logs with
     | Some s => if truthy (VStr s) then py_len s else 0
     | None => 0
     end) mod 1000 in
  let mcp_compliance : dict :=
    <["spec_alignment" := VFloat (norm (py_truediv (base mod 100) 100))]>
    (<["tools_schema_valid" := VFloat (norm (py_truediv ((base / 3) mod 100) 100))]>
    (<["errors" := VList []]> ∅)) in
  let safety : dict :=
    <["toxicity" := VFloat (norm (py_truediv ((base + chat_factor) mod 100) 100))]>
    (<["compliance" := VFloat (norm (py_truediv ((base / 7 + chat_factor / 5) mod 100) 100))]>
    (<["harmfulness" := VFloat (norm (py_truediv ((base / 11) mod 100) 100))]> ∅)) in
  let chatbot : dict :=
    <["relevance" := VFloat (norm (py_truediv ((base / 13 + chat_factor / 3) mod 100) 100))]>
    (<["helpfulness" := VFloat (norm (py_truediv ((base / 5) mod 100) 100))]>
    (<["factuality" := VFloat (norm (py_truediv ((base / 9) mod 100) 100))]>
    (<["latency" := VInt (py_round_int (100 + base mod 50) 0)]> ∅))) in
  <["mcp_compliance" := VDict mcp_compliance]>
  (<["safety" := VDict safety]>
  (<["chatbot" := VDict chatbot]> ∅)).

(** *** The scorer as the specification words it

    [spec_score] follows section 4.2 of the specification, over lengths; it is
    compared with [dummy_deepeval] below. *)

Definition spec_clamp (v lo hi : Q) : Q :=
  if Qle_bool v lo then lo else if Qle_bool hi v then hi else v.

Definition spec_norm (v : Q) : Q := py_round (spec_clamp v 0 1) 2.

Record McpCompliance : Type := mkMcp {
  specAlignment : Q;
  toolsSchemaValid : Q;
  errors : list value
}.

Record Safety : Type := mkSafety {
  toxicity : Q;
  compliance : Q;
  harmfulness : Q
}.

Record Chatbot : Type := mkChatbot {
  relevance : Q;
  helpfulness : Q;
  factuality : Q;
  latency : Z
}.

Record Metrics : Type := mkMetrics {
  mcpCompliance : McpCompliance;
  safety : Safety;
  chatbot : Chatbot
}.

Definition spec_score (agentCardLength : Z) (chatLength : option Z) : Metrics :=
  let base := Z.max 1 agentCardLength in
  let chatFactor := match chatLength with Some n => n mod 1000 | None => 0 end in
  let hundredth (k : Z) : Q := spec_norm (Qmake (k mod 100) 100) in
  mkMetrics
    (mkMcp (hundredth base) (hundredth (base / 3)) [])
    (mkSafety (hundredth (base + chatFactor))
              (hundredth (base / 7 + chatFactor / 5))
              (hundredth (base / 11)))
    (mkChatbot (hundredth (base / 13 + chatFactor / 3))
               (hundredth (base / 5))
               (hundredth (base / 9))
               (100 + base mod 50)).

(** The stored shape of a [Metrics] structure. *)
Definition metrics_dict (m : Metrics) : dict :=
  <["mcp_compliance" := VDict
      (<["spec_alignment" := VFloat (specAlignment (mcpCompliance m))]>
      (<["tools_schema_valid" := VFloat (toolsSchemaValid (mcpCompliance m))]>
      (<["errors" := VList (errors (mcpCompliance m))]> ∅)))]>
  (<["safety" := VDict
      (<["toxicity" := VFloat (toxicity (safety m))]>
      (<["compliance" := VFloat (compliance (safety m))]>
      (<["harmfulness" := VFloat (harmfulness (safety m))]> ∅)))]>
  (<["chatbot" := VDict
      (<["relevance" := VFloat (relevance (chatbot m))]>
      (<["helpfulness" := VFloat (helpfulness (chatbot m))]>
      (<["factuality" := VFloat (factuality (chatbot m))]>
      (<["latency" := VInt (latency (chatbot m))]> ∅))))]> ∅)).

(** A number found in a metrics structure, with the keys leading to it. *)
Fixpoint numeric_leaves (path : list string) (v : value) : list (list string * value) :=
  match v with
  | VInt _ | VFloat _ => [(path, v)]
  | VList l => flat_map (numeric_leaves path) l
  | VDict d => map_fold (fun k x acc => numeric_leaves (path ++ [k]) x ++ acc) [] d
  | _ => []
  end.

(** The number a numeric value stands for. *)
Definition number_of (v : value) : option Q :=
  match v with
  | VInt z => Some (inject_Z z)
  | VFloat q => Some q
  | _ => None
  end.

(** A number of the closed unit interval written with two decimals: [h / 100]
    for an integer [0 <= h <= 100]. *)
Definition unit_score (v : value) : Prop :=
  exists q, number_of v = Some q /\ (0 <= q)%Q /\ (q <= 1)%Q /\ exists h : Z, (q == Qmake h 100)%Q.

Section Program.

(** [str()] of a number, a list or a dict, as the Python runtime prints it. *)
Variable py_repr : value -> string.

(** pydantic's [HttpUrl] validator, the declared type of both request fields
    (schemas.py 44-45): [None] when the text is rejected, otherwise the text
    that [str()] gives for the validated URL. *)
Variable HttpUrl : string -> option string.

(** ** Reporter ([render_html_report], main.py 72-129) *)

(** [format(v, '')], what an f-string field [{v}] inserts. *)
Definition py_str (v : value) : string :=
  match v with
  | VStr s => s
  | VNone => "None"
  | VOid hex => hex
  | _ => py_repr v
  end.

(** [v.get(k, dflt)]: only a dict has the method. *)
Definition py_get (v : value) (k : string) (dflt : value) : result value :=
  match v with
  | VDict d => Ok (default dflt (d !! k))
  | _ => Raise (Error "AttributeError"
                  ("'" +:+ type_name v +:+ "' object has no attribute 'get'"))
  end.

Definition nl : string := String (ascii_of_nat 10) EmptyString.

(** The text of a block of source lines, each with its line end. *)
Definition py_lines (ls : list string) : string :=
  foldr (fun l acc => l +:+ nl +:+ acc) EmptyString ls.

(** The inner [row] of lines 74-75. *)
Definition row (label : string) (v : value) : string :=
  "<tr><td style='padding:8px;font-weight:600'>" +:+ label
  +:+ "</td><td style='padding:8px'>" +:+ py_str v +:+ "</td></tr>".

Notation "'let?' x ':=' c 'in' k" := (rbind c (fun x => k))
  (at level 10, x pattern, c at level 100, k at level 200).

Definition render_html_report (evaluation : dict) : result string :=
  let m := default (VDict ∅) (evaluation !! "metrics") in
  let? safety := py_get m "safety" (VDict ∅) in
  let? mcp := py_get m "mcp_compliance" (VDict ∅) in
  let? bot := py_get m "chatbot" (VDict ∅) in
  let status := dict_get evaluation "status" in
  let agent_card_url := dict_get evaluation "agent_card_url" in
  let chat_url := py_or (dict_get evaluation "chat_url") (VStr "—") in
  let? spec_alignment := py_get mcp "spec_alignment" (VStr "n/a") in
  let? tools_schema_valid := py_get mcp "tools_schema_valid" (VStr "n/a") in
  let? toxicity := py_get safety "toxicity" (VStr "n/a") in
  let? compliance := py_get safety "compliance" (VStr "n/a") in
  let? harmfulness := py_get safety "harmfulness" (VStr "n/a") in
  let? relevance := py_get bot "relevance" (VStr "n/a") in
  let? helpfulness := py_get bot "helpfulness" (VStr "n/a") in
  let? factuality := py_get bot "factuality" (VStr "n/a") in
  let? latency := py_get bot "latency" (VStr "n/a") in
  Ok (nl +:+ py_lines [
    "    <html>";
    "      <head>";
    "        <meta charset='utf-8' />";
    "        <meta name='viewport' content='width=device-width, initial-scale=1' />";
    "        <title>Agent Evaluator Report</title>";
    "        <style>";
    "          body { font-family: ui-sans-serif, system-ui, -apple-system; padding: 24px; background: #0b1020; color: #e6f0ff; }";
    "          .card { background: #0f172a; border: 1px solid #1f2a44; border-radius: 12px; padding: 20px; max-width: 960px; margin: 0 auto; }";
    "          h1 { font-size: 24px; margin: 0 0 12px; }";
    "          h2 { font-size: 18px; margin: 20px 0 8px; color: #9fb3ff; }";
    "          table { width: 100%; border-collapse: collapse; margin-top: 8px; }";
    "          tr:nth-child(even) td { background: #0b132b; }";
    "          td { border-top: 1px solid #1f2a44; }";
    "          .muted { color: #9fb3ff; }";
    "        </style>";
    "      </head>";
    "      <body>";
    "        <div class='card'>";
    "          <h1>Agent Evaluator Report</h1>";
    "          <div class='muted'>Status: " +:+ py_str status +:+ "</div>";
    "          <div class='muted'>Agent Card: " +:+ py_str agent_card_url +:+ "</div>";
    "          <div class='muted'>Chat Logs: " +:+ py_str chat_url +:+ "</div>";
    EmptyString;
    "          <h2>MCP Compliance</h2>";
    "          <table>";
    "            " +:+ row "Spec Alignment" spec_alignment;
    "            " +:+ row "Tools Schema Valid" tools_schema_valid;
    "          </table>";
    EmptyString;
    "          <h2>Safety</h2>";
    "          <table>";
    "            " +:+ row "Toxicity" toxicity;
    "            " +:+ row "Compliance" compliance;
    "            " +:+ row "Harmfulness" harmfulness;
    "          </table>";
    EmptyString;
    "          <h2>Chatbot Metrics</h2>";
    "          <table>";
    "            " +:+ row "Relevance" relevance;
    "            " +:+ row "Helpfulness" helpfulness;
    "            " +:+ row "Factuality" factuality;
    "            " +:+ row "Latency (ms)" latency;
    "          </table>";
    "        </div>";
    "      </body>";
    "    </html>"
  ] +:+ "    ").

(** ** The document store (collection [evaluation]) *)

(** One call to the store: it is counted and logged; the environment decides
    whether the driver raises and whether the call took effect. *)
Definition store_call {A} (env : Env) (ev : event)
    (run : gmap string dict -> result A * gmap string dict) : M A :=
  fun w =>
    let '(r, st') := run (store w) in
    let applied := mkWorld st' (n_gets w) (S (n_ops w)) (log w ++ [ev]) in
    let skipped := mkWorld (store w) (n_gets w) (S (n_ops w)) (log w ++ [ev]) in
    match db_answers env (n_ops w) with
    | DbOk => (r, applied)
    | DbFail true msg => (Raise (Error "PyMongoError" msg), applied)
    | DbFail false msg => (Raise (Error "PyMongoError" msg), skipped)
    end.

(** [insert_one(doc)]: stores [doc] under a generated id and returns the id. *)
Definition insert_one (env : Env) (doc : dict) : M string :=
  fun w =>
    let oid := new_oid env (n_ops w) in
    store_call env (EvInsert doc)
      (fun st => match st !! oid with
                 | Some _ => (Raise (Error "DuplicateKeyError" oid), st)
                 | None => (Ok oid, <[oid := doc]> st)
                 end) w.

(** [update_one({"_id": oid}, {"$set": fields})]: no match, no change. *)
Definition update_one (env : Env) (oid : string) (fields : dict) : M unit :=
  store_call env (EvUpdate oid fields)
    (fun st => (Ok tt, match st !! oid with
                       | Some d => <[oid := dict_update d fields]> st
                       | None => st
                       end)).

(** [find_one({"_id": oid})]: the document with its [_id], or [None]. *)
Definition find_one (env : Env) (oid : string) : M (option dict) :=
  store_call env (EvFind oid)
    (fun st => (Ok (insert "_id" (VOid oid) <$> st !! oid), st)).

(** ** Request and document schemas (schemas.py 43-57) *)

(** A validated [EvaluationRequest]; the fields hold [str(req.agent_card_url)]
    and [str(req.chat_url)]. *)
Record EvaluationRequest : Type := mkRequest {
  agent_card_url : string;
  chat_url : option string
}.

(** [Evaluation(agent_card_url=.., chat_url=.., status=..).model_dump()]: all six
    fields, the unset ones as [None]. *)
Definition Evaluation_model_dump (agent_card_url : string) (chat_url : option string)
    (status : string) : dict :=
  <["agent_card_url" := VStr agent_card_url]>
  (<["chat_url" := from_option VStr VNone chat_url]>
  (<["status" := VStr status]>
  (<["metrics" := VNone]>
  (<["html_report" := VNone]>
  (<["error" := VNone]> ∅))))).

(** ** Evaluation service (main.py 137-219) *)

(** [POST /evaluate] (lines 138-179), on a validated request. *)
Definition evaluate (env : Env) (req : EvaluationRequest) : M dict :=
  if negb (db_configured env) then raise (HTTPException 500 "Database not configured") else
  let doc := Evaluation_model_dump (agent_card_url req) (chat_url req) "running" in
  let* inserted_id := insert_one env doc in
  (* insert_one has added the generated id to [doc] *)
  let doc := <["_id" := VOid inserted_id]> doc in
  let eval_id := inserted_id in
  try_except
    (let* agent_card_text := fetch_default env (agent_card_url req) in
     let* chat_text :=
       match chat_url req with
       | Some u => let* t := fetch_default env u in ret (Some t)
       | None => ret None
       end in
     let metrics := dummy_deepeval agent_card_text chat_text in
     let updated : dict :=
       <["status" := VStr "completed"]> (<["metrics" := VDict metrics]> ∅) in
     let temp_doc := dict_update doc updated in
     let temp_doc := <["metrics" := VDict metrics]> temp_doc in
     let temp_doc := <["status" := VStr "completed"]> temp_doc in
     let temp_doc := <["agent_card_url" := VStr (agent_card_url req)]> temp_doc in
     let temp_doc := <["chat_url" := from_option VStr VNone (chat_url req)]> temp_doc in
     let* html := lift (render_html_report temp_doc) in
     let updated := <["html_report" := VStr html]> updated in
     let* _ := update_one env inserted_id updated in
     ret (<["id" := VStr eval_id]>
          (<["status" := VStr "completed"]>
          (<["metrics" := VDict metrics]> ∅))))
    (fun e =>
       let* _ := update_one env inserted_id (<["status" := VStr "failed"]> ∅) in
       raise e)
    (fun msg =>
       let* _ := update_one env inserted_id
                   (<["status" := VStr "failed"]> (<["error" := VStr msg]> ∅)) in
       raise (HTTPException 500 ("Evaluation failed: " +:+ msg))).

(** [ObjectId(s)] on a text: [len(s) == 24] and [bytes.fromhex(s)] has to go
    through.  [fromhex] reads pairs of hexadecimal digits and skips ASCII
    whitespace between pairs, so the id can come out shorter than twelve
    bytes.  An id is kept as the text [str()] gives for it, its bytes in lower
    case hexadecimal. *)
Definition is_hex_digit (c : ascii) : bool :=
  let n := nat_of_ascii c in
  ((48 <=? n) && (n <=? 57) || (65 <=? n) && (n <=? 70) || (97 <=? n) && (n <=? 102))%nat.

(** Space, and tab to carriage return. *)
Definition is_space (c : ascii) : bool :=
  let n := nat_of_ascii c in
  ((n =? 32) || (9 <=? n) && (n <=? 13))%nat.

Definition to_lower (c : ascii) : ascii :=
  let n := nat_of_ascii c in
  if ((65 <=? n) && (n <=? 90))%nat then ascii_of_nat (n + 32) else c.

(** [bytes.fromhex(s).hex()], or [None] where [fromhex] raises. *)
Fixpoint fromhex (cs : list ascii) : option (list ascii) :=
  match cs with
  | [] => Some []
  | c :: rest =>
      if is_space c then fromhex rest
      else if is_hex_digit c then
        match rest with
        | d :: rest' =>
            if is_hex_digit d
            then match fromhex rest' with
                 | Some digits => Some (to_lower c :: to_lower d :: digits)
                 | None => None
                 end
            else None
        | [] => None
        end
      else None
  end.

Definition ObjectId (s : string) : result string :=
  let cs := list_ascii_of_string s in
  if (length cs =? 24)%nat
  then match fromhex cs with
       | Some digits => Ok (string_of_list_ascii digits)
       | None => Raise (Error "InvalidId" s)
       end
  else Raise (Error "InvalidId" s).

(** [HTMLResponse(content=.., status_code=200)]: the body is the encoded text. *)
Definition HTMLResponse (content : value) : result string :=
  match content with
  | VStr s => Ok s
  | VNone => Ok EmptyString
  | _ => Raise (Error "AttributeError"
                  ("'" +:+ type_name content +:+ "' object has no attribute 'encode'"))
  end.

(** Lines 200-209, shared by both read paths: the store handle, the id, the
    lookup. *)
Definition load_evaluation (env : Env) (evaluation_id : string) : M dict :=
  if negb (db_configured env) then raise (HTTPException 500 "Database not configured") else
  match ObjectId evaluation_id with
  | Raise _ => raise (HTTPException 400 "Invalid evaluation id")
  | Ok _id =>
      let* doc := find_one env _id in
      match doc with
      | Some d => if truthy (VDict d) then ret d
                  else raise (HTTPException 404 "Evaluation not found")
      | None => raise (HTTPException 404 "Evaluation not found")
      end
  end.

(** [GET /evaluations/{id}] (lines 183-195). *)
Definition get_evaluation (env : Env) (evaluation_id : string) : M dict :=
  let* doc := load_evaluation env evaluation_id in
  ret (<["id" := VStr (py_str (dict_get doc "_id"))]> (delete "_id" doc)).

(** [GET /evaluations/{id}/report] (lines 199-219). *)
Definition get_evaluation_report (env : Env) (evaluation_id : string) : M string :=
  let* doc := load_evaluation env evaluation_id in
  let html := dict_get doc "html_report" in
  if negb (truthy html)
  then
    let* html := lift (render_html_report
                   (<["status" := dict_get doc "status"]>
                   (<["agent_card_url" := dict_get doc "agent_card_url"]>
                   (<["chat_url" := dict_get doc "chat_url"]>
                   (<["metrics" := py_or (dict_get doc "metrics") (VDict ∅)]> ∅))))) in
    lift (HTMLResponse (VStr html))
  else lift (HTMLResponse html).

(** ** The HTTP surface *)

Record HttpResponse : Type := mkResponse {
  status_code : Z;
  content : value
}.

(** What the framework sends for the outcome of a handler. *)
Definition respond {A} (body : A -> value) (r : result A) : HttpResponse :=
  match r with
  | Ok a => mkResponse 200 (body a)
  | Raise (HTTPException s d) => mkResponse s (VDict (<["detail" := VStr d]> ∅))
  | Raise (Error _ _) => mkResponse 500 (VStr "Internal Server Error")
  end.

(** The JSON body of [POST /evaluate] before validation. *)
Record RequestBody : Type := mkBody {
  body_agent_card_url : string;
  body_chat_url : option string
}.

(** Validation of the body against [EvaluationRequest]. *)
Definition validate_request (body : RequestBody) : option EvaluationRequest :=
  match HttpUrl (body_agent_card_url body) with
  | None => None
  | Some a =>
      match body_chat_url body with
      | None => Some (mkRequest a None)
      | Some c =>
          match HttpUrl c with
          | None => None
          | Some c' => Some (mkRequest a (Some c'))
          end
      end
  end.

(** The route [POST /evaluate]: the framework validates the body against the
    declared parameter type and only then calls the handler. *)
Definition post_evaluate (env : Env) (body : RequestBody) (w : World) : HttpResponse * World :=
  match validate_request body with
  | None => (mkResponse 422 VNone, w)   (* the listing of the offending fields is left out *)
  | Some req => let '(r, w') := evaluate env req w in (respond VDict r, w')
  end.

(** The route [GET /evaluations/{id}/report]. *)
Definition get_report_route (env : Env) (evaluation_id : string) (w : World)
    : HttpResponse * World :=
  let '(r, w') := get_evaluation_report env evaluation_id w in (respond VStr r, w').

(** ** Vocabulary of the properties *)

(** *** Fetcher *)

(** What attempt [i] of a fetch leaves in the log when it fails: the GET, and
    the sleep that the guard of line 35 allows. *)
Definition failed_attempt_events (url : string) (max_retries : Z) (backoff : Q) (timeout : Z)
    (i : nat) : list event :=
  EvGet url timeout ::
  (if Z.of_nat i <? max_retries - 1
   then [EvSleep (backoff * inject_Z (2 ^ Z.of_nat i))]
   else []).

Definition loop_trace (url : string) (max_retries : Z) (backoff : Q) (timeout : Z)
    (s k : nat) : list event :=
  flat_map (failed_attempt_events url max_retries backoff timeout) (seq s k).

(** [k] failed attempts, each followed by its backoff [backoff * 2^i]. *)
Definition backoff_trace (url : string) (backoff : Q) (timeout : Z) (k : nat) : list event :=
  flat_map (fun i => [EvGet url timeout; EvSleep (backoff * inject_Z (2 ^ Z.of_nat i))])
           (seq 0 k).

(** The log of a fetch whose [n] attempts all failed: no sleep after the last. *)
Definition exhausted_trace (url : string) (backoff : Q) (timeout : Z) (n : nat) : list event :=
  match n with
  | O => []
  | S m => backoff_trace url backoff timeout m ++ [EvGet url timeout]
  end.

(** Whether the sleep after a failed attempt goes through: the power of two
    converts to a float, and the length fits the clock and is not negative. *)
Definition sleep_accepted (backoff : Q) (attempt : Z) : bool :=
  (Z.abs (2 ^ attempt) <? float_int_bound)
  && Qle_bool (Qabs (backoff * inject_Z (2 ^ attempt))%Q) clock_max
  && Qle_bool 0 (backoff * inject_Z (2 ^ attempt))%Q.

(** A quarter of the clock's range, [2^61] nanoseconds or some 73 years.  The
    sleeps of a fetch double from one to the next, so with the longest at most
    this long they take less than half of the range together, and their
    deadlines stay on the clock of a machine that has run for less than the
    other half. *)
Definition sleep_max : Q := (2305843009213693952 # 1000000000)%Q.

(** Retry parameters for which every sleep of the loop goes through: the
    powers of two convert to floats, and the longest sleep, after attempt
    [max_retries - 2], is at most [sleep_max]. *)
Definition backoff_in_range (max_retries : Z) (backoff : Q) : Prop :=
  (0 <= backoff)%Q /\ max_retries <= 1025 /\
  (backoff * inject_Z (2 ^ (max_retries - 2)) <= sleep_max)%Q.

Definition is_get (ev : event) : bool :=
  match ev with EvGet _ _ => true | _ => false end.

Definition is_store_event (ev : event) : bool :=
  match ev with EvInsert _ | EvUpdate _ _ | EvFind _ => true | _ => false end.

Definition is_update (ev : event) : bool :=
  match ev with EvUpdate _ _ => true | _ => false end.

(** The events a computation appended to the log. *)
Definition new_events (w w' : World) : list event := drop (length (log w)) (log w').

(** The message of the failure that a run of [m] failed attempts ends with. *)
Definition last_failure (env : Env) (url : string) (g m : nat) (before : option string)
    : option string :=
  match m with
  | O => before
  | S m' => match net env (g + m') url with
            | Failed msg => Some msg
            | Delivered _ => None
            end
  end.

(** Lines 152-153 on their own: both texts, or the first fetch error. *)
Definition fetch_texts (env : Env) (req : EvaluationRequest) : M (string * option string) :=
  let* agent_card_text := fetch_default env (agent_card_url req) in
  let* chat_text :=
    match chat_url req with
    | Some u => let* t := fetch_default env u in ret (Some t)
    | None => ret None
    end in
  ret (agent_card_text, chat_text).

(** *** Scorer *)

(** One sub-score of a metrics structure. *)
Definition metric (m : dict) (group key : string) : option value :=
  match m !! group with
  | Some (VDict g) => g !! key
  | _ => None
  end.

(** The claim that every number of the scorer's output is a unit score. *)
Definition every_number_is_unit_score : Prop :=
  forall (agent_card : string) (chat_logs : option string) (p : list string) (v : value),
    (p, v) ∈ numeric_leaves [] (VDict (dummy_deepeval agent_card chat_logs)) ->
    unit_score v.

(** *** Records of the store *)

(** A field is set when it is there and not [None]. *)
Definition is_set (d : dict) (k : string) : bool :=
  match d !! k with
  | None | Some VNone => false
  | Some _ => true
  end.

Definition record_inv (d : dict) : Prop :=
  is_set d "metrics" = is_set d "html_report" /\
  (is_set d "error" = true -> d !! "status" = Some (VStr "failed")).

Definition store_inv (st : gmap string dict) : Prop :=
  forall oid d, st !! oid = Some d -> record_inv d.

(** The document that [evaluate] inserts, and the world right after. *)
Definition running_doc (req : EvaluationRequest) : dict :=
  Evaluation_model_dump (agent_card_url req) (chat_url req) "running".

Definition after_insert (env : Env) (req : EvaluationRequest) (w : World) : World :=
  mkWorld (<[new_oid env (n_ops w) := running_doc req]> (store w))
          (n_gets w) (S (n_ops w)) (log w ++ [EvInsert (running_doc req)]).

(** The worlds that a sequence of requests, one after the other, can lead to
    from an empty collection. *)
Inductive reachable : World -> Prop :=
| reach_empty w : store w = ∅ -> reachable w
| reach_evaluate env body w :
    reachable w -> reachable (post_evaluate env body w).2
| reach_get env evaluation_id w :
    reachable w -> reachable (get_evaluation env evaluation_id w).2
| reach_report env evaluation_id w :
    reachable w -> reachable (get_report_route env evaluation_id w).2.

(** The view of a stored document that the report route renders (lines 213-218). *)
Definition report_view (doc : dict) : dict :=
  <["status" := dict_get doc "status"]>
  (<["agent_card_url" := dict_get doc "agent_card_url"]>
  (<["chat_url" := dict_get doc "chat_url"]>
  (<["metrics" := py_or (dict_get doc "metrics") (VDict ∅)]> ∅))).

(** The claim that a stored [html_report] text is always what the report route
    answers with. *)
Definition cached_report_served_verbatim : Prop :=
  forall (env : Env) (evaluation_id oid : string) (w : World) (d : dict) (html : string),
    db_configured env = true ->
    ObjectId evaluation_id = Ok oid ->
    db_answers env (n_ops w) = DbOk ->
    store w !! oid = Some d ->
    d !! "html_report" = Some (VStr html) ->
    (get_evaluation_report env evaluation_id w).1 = Ok html.

(** *** Reporter *)

(** A group of metrics the reporter can read: missing, or a dict. *)
Definition group_ok (m : dict) (g : string) : Prop :=
  match m !! g with
  | None | Some (VDict _) => True
  | Some _ => False
  end.

(** A record whose [metrics] the reporter can read: no such key, or a dict of
    readable groups. *)
Definition metrics_ok (evaluation : dict) : Prop :=
  match evaluation !! "metrics" with
  | None => True
  | Some (VDict m) => group_ok m "safety" /\ group_ok m "mcp_compliance" /\ group_ok m "chatbot"
  | Some _ => False
  end.

(** *** The updates that [evaluate] sends *)

Definition completed_update (metrics : dict) (html : string) : dict :=
  <["html_report" := VStr html]>
  (<["status" := VStr "completed"]> (<["metrics" := VDict metrics]> ∅)).

Definition failed_update : dict := <["status" := VStr "failed"]> ∅.

Definition failed_update_with (msg : string) : dict :=
  <["status" := VStr "failed"]> (<["error" := VStr msg]> ∅).

(** What a store call that the environment answers with [a] returns and
    leaves behind, given what it would do when performed. *)
Definition answered_result {A} (a : db_answer) (r : result A) : result A :=
  match a with
  | DbOk => r
  | DbFail _ msg => Raise (Error "PyMongoError" msg)
  end.

Definition answered_store (a : db_answer) (st st_applied : gmap string dict)
    : gmap string dict :=
  match a with
  | DbFail false _ => st
  | _ => st_applied
  end.

(** The [temp_doc] that is rendered on the success path (lines 162-166). *)
Definition temp_doc_of (req : EvaluationRequest) (oid : string) (metrics : dict) : dict :=
  <["chat_url" := from_option VStr VNone (chat_url req)]>
  (<["agent_card_url" := VStr (agent_card_url req)]>
  (<["status" := VStr "completed"]>
  (<["metrics" := VDict metrics]>
  (dict_update (<["_id" := VOid oid]> (running_doc req))
               (<["status" := VStr "completed"]> (<["metrics" := VDict metrics]> ∅)))))).

(** The reply of a successful evaluation (line 172). *)
Definition completed_reply (oid : string) (metrics : dict) : dict :=
  <["id" := VStr oid]> (<["status" := VStr "completed"]> (<["metrics" := VDict metrics]> ∅)).

End Program.

(** ** Sample environments

    Small concrete worlds on which the properties below are exercised. *)

Definition sample_oid : string := "65f1c0ffee0123456789abcd".

Definition sample_repr (v : value) : string :=
  match v with
  | VInt z => pretty z
  | VBool true => "True"
  | VBool false => "False"
  | _ => "<value>"
  end.

(** A stand-in for the validator in the examples: it lets texts starting with
    [http://] or [https://] through as they are, as [HttpUrl] does with the
    sample URLs below, and says nothing of other texts. *)
Definition sample_HttpUrl (s : string) : option string :=
  if String.prefix "http://" s || String.prefix "https://" s then Some s else None.

Definition w_empty : World := mkWorld ∅ 0 0 [].

(** Every GET times out; the store works. *)
Definition env_down : Env :=
  mkEnv true (fun _ _ => Failed "timed out") (fun _ => DbOk) (fun _ => sample_oid).

(** The first two GETs fail, later ones deliver. *)
Definition env_flaky : Env :=
  mkEnv true (fun n _ => if (n <? 2)%nat then Failed "connection reset" else Delivered "{}")
        (fun _ => DbOk) (fun _ => sample_oid).

(** Every GET delivers; the store works. *)
Definition env_up : Env :=
  mkEnv true (fun _ _ => Delivered "{}") (fun _ => DbOk) (fun _ => sample_oid).

(** Every GET delivers; the second store call (the update) fails unapplied. *)
Definition env_store_fault : Env :=
  mkEnv true (fun _ _ => Delivered "{}")
        (fun n => if (n =? 1)%nat then DbFail false "not primary" else DbOk)
        (fun _ => sample_oid).

Definition sample_request : EvaluationRequest :=
  mkRequest "http://agent.example/card.json" None.

Definition sample_body : RequestBody :=
  mkBody "http://agent.example/card.json" None.

(** A record whose stored page is the empty text, and one with a real page. *)
Definition doc_empty_report : dict :=
  <["html_report" := VStr EmptyString]> (running_doc sample_request).

Definition w_empty_report : World :=
  mkWorld (<[sample_oid := doc_empty_report]> ∅) 0 0 [].

Definition doc_cached_report : dict :=
  <["html_report" := VStr "<html>cached</html>"]> (running_doc sample_request).

Definition w_cached_report : World :=
  mkWorld (<[sample_oid := doc_cached_report]> ∅) 0 0 [].

(** ** Diagnostics ([read_root] and [test_database], main.py 132-134 and 222-253) *)

Definition read_root : dict := <["message" := VStr "Agent Evaluator API"]> ∅.

(** What [db.list_collection_names()] does: the names, or an exception [e]
    with [str(e) = msg]. *)
Inductive listing : Type :=
| Listed (collections : list string)
| ListingRaises (msg : string).

(** The store handle as [test_database] uses it: its [name] attribute when it
    has one, and the answer to [list_collection_names()]. *)
Record Database : Type := mkDatabase {
  db_name : option string;
  list_collection_names : listing
}.

(** [s[:n]] *)
Definition py_prefix (n : nat) (s : string) : string := String.substring 0 n s.

(** [os.getenv(k)] used as a condition. *)
Definition env_set (getenv : string -> option string) (k : string) : bool :=
  truthy (from_option VStr VNone (getenv k)).

(** [GET /test]; [db] is the module's store handle, [None] when unconfigured.
    Nothing in the outer [try] raises here, so its handler (lines 247-248) has
    no case. *)
Definition test_database (db : option Database) (getenv : string -> option string) : dict :=
  let response : dict :=
    <["backend" := VStr "✅ Running"]>
    (<["database" := VStr "❌ Not Available"]>
    (<["database_url" := VNone]>
    (<["database_name" := VNone]>
    (<["connection_status" := VStr "Not Connected"]>
    (<["collections" := VList []]> ∅))))) in
  let response :=
    match db with
    | Some d =>
        let response := <["database" := VStr "✅ Available"]> response in
        let response := <["database_url" := VStr "✅ Configured"]> response in
        let response :=
          <["database_name" := VStr (default "✅ Connected" (db_name d))]> response in
        let response := <["connection_status" := VStr "Connected"]> response in
        match list_collection_names d with
        | Listed collections =>
            let response := <["collections" := VList (VStr <$> take 10 collections)]> response in
            <["database" := VStr "✅ Connected & Working"]> response
        | ListingRaises msg =>
            <["database" := VStr ("⚠️  Connected but Error: " +:+ py_prefix 50 msg)]> response
        end
    | None => <["database" := VStr "⚠️  Available but not initialized"]> response
    end in
  let response :=
    <["database_url" := VStr (if env_set getenv "DATABASE_URL" then "✅ Set" else "❌ Not Set")]>
      response in
  let response :=
    <["database_name" := VStr (if env_set getenv "DATABASE_NAME" then "✅ Set" else "❌ Not Set")]>
      response in
  response.

(** ** Further vocabulary *)

(** The seconds slept in a stretch of the log. *)
Definition total_sleep (evs : list event) : Q :=
  foldr (fun ev acc => match ev with EvSleep secs => secs + acc | _ => acc end)%Q 0%Q evs.

(** The URLs requested in a stretch of the log, in order. *)
Definition requested_urls (evs : list event) : list string :=
  flat_map (fun ev => match ev with EvGet url _ => [url] | _ => [] end) evs.

(** No exception at all. *)
Definition is_ok {A} (r : result A) : bool :=
  match r with Ok _ => true | Raise _ => false end.

(** The five shapes of a record that [evaluate] leaves behind for a request:
    as inserted, marked by either handler, completed, or completed and then
    marked by the second handler (when the completing update raised after it
    was performed). *)
Inductive service_record (py_repr : value -> string) (req : EvaluationRequest) (oid : string)
    : dict -> Prop :=
| sr_running :
    service_record py_repr req oid (running_doc req)
| sr_failed :
    service_record py_repr req oid (dict_update (running_doc req) failed_update)
| sr_failed_with msg :
    service_record py_repr req oid (dict_update (running_doc req) (failed_update_with msg))
| sr_completed texts html :
    render_html_report py_repr (temp_doc_of req oid (dummy_deepeval texts.1 texts.2)) = Ok html ->
    service_record py_repr req oid
      (dict_update (running_doc req)
                   (completed_update (dummy_deepeval texts.1 texts.2) html))
| sr_completed_failed texts html msg :
    render_html_report py_repr (temp_doc_of req oid (dummy_deepeval texts.1 texts.2)) = Ok html ->
    service_record py_repr req oid
      (dict_update (dict_update (running_doc req)
                                (completed_update (dummy_deepeval texts.1 texts.2) html))
                   (failed_update_with msg)).

(** A store handle that lists twelve collections, and an environment with
    only [DATABASE_URL] set. *)
Definition sample_database : Database :=
  mkDatabase (Some "evaluator")
    (Listed ["c01"; "c02"; "c03"; "c04"; "c05"; "c06"; "c07"; "c08"; "c09"; "c10"; "c11"; "c12"]).

Definition sample_getenv (k : string) : option string :=
  if String.eqb k "DATABASE_URL" then Some "mongodb://localhost" else None.

(** * Properties *)

(** ** Fetcher *)

Lemma pow2_float_int (i : Z) : i <= 1023 -> (Z.abs (2 ^ i) <? float_int_bound) = true.
Proof.
  intros Hi. apply Z.ltb_lt.
  assert (H0 : 0 <= 2 ^ i) by (apply Z.pow_nonneg; lia).
  rewrite Z.abs_eq by exact H0.
  assert (Hle : 2 ^ i <= 2 ^ 1023).
  { destruct (Z.le_gt_cases 0 i) as [Hp|Hn].
    - apply Z.pow_le_mono_r; lia.
    - rewrite Z.pow_neg_r by lia. apply Z.pow_nonneg. lia. }
  assert (Hlt : 2 ^ 1023 < float_int_bound) by (vm_compute; reflexivity).
  lia.
Qed.

Lemma backoff_monotone (backoff : Q) (i j : Z) :
  (0 <= backoff)%Q -> i <= j -> 0 <= j ->
  (0 <= backoff * inject_Z (2 ^ i) /\ backoff * inject_Z (2 ^ i) <= backoff * inject_Z (2 ^ j))%Q.
Proof.
  intros Hb Hij Hj.
  assert (H0 : 0 <= 2 ^ i) by (apply Z.pow_nonneg; lia).
  assert (Hle : 2 ^ i <= 2 ^ j).
  { destruct (Z.le_gt_cases 0 i) as [Hp|Hn].
    - apply Z.pow_le_mono_r; lia.
    - rewrite Z.pow_neg_r by lia. apply Z.pow_nonneg. lia. }
  rewrite Zle_Qle in H0, Hle. change (inject_Z 0) with 0%Q in H0.
  split.
  - apply Qmult_le_0_compat; assumption.
  - rewrite !(Qmult_comm backoff). apply Qmult_le_compat_r; assumption.
Qed.

(** Within the range, the sleep after every attempt but the last is accepted. *)
Lemma sleep_accepted_in_range (max_retries : Z) (backoff : Q) (i : Z) :
  backoff_in_range max_retries backoff -> 0 <= i < max_retries - 1 ->
  sleep_accepted backoff i = true.
Proof.
  intros (Hb & Hn & Hmax) Hi. unfold sleep_accepted.
  destruct (backoff_monotone backoff i (max_retries - 2) Hb ltac:(lia) ltac:(lia)) as [H0 Hle].
  rewrite pow2_float_int by lia.
  assert (H1 : Qle_bool 0 (backoff * inject_Z (2 ^ i)) = true) by (apply Qle_bool_iff; exact H0).
  assert (H2 : Qle_bool (Qabs (backoff * inject_Z (2 ^ i))) clock_max = true).
  { apply Qle_bool_iff. rewrite Qabs_pos by exact H0.
    assert (Hq : (sleep_max <= clock_max)%Q) by (vm_compute; discriminate). lra. }
  rewrite H1, H2. reflexivity.
Qed.

(** The sleep of line 36 on its own: it is logged, or it raises and leaves the
    world as it was. *)
Lemma backoff_sleep_ok (backoff : Q) (attempt : Z) (w : World) :
  sleep_accepted backoff attempt = true ->
  (let* secs := lift (float_mul_int backoff (2 ^ attempt)) in time_sleep secs) w
  = (Ok tt, mkWorld (store w) (n_gets w) (n_ops w)
              (log w ++ [EvSleep (backoff * inject_Z (2 ^ attempt))])).
Proof.
  unfold sleep_accepted, bind, lift, float_mul_int, time_sleep.
  destruct (Z.abs (2 ^ attempt) <? float_int_bound); [|discriminate].
  destruct (Qle_bool (Qabs (backoff * inject_Z (2 ^ attempt))) clock_max); [|discriminate].
  destruct (Qle_bool 0 (backoff * inject_Z (2 ^ attempt))); [reflexivity|discriminate].
Qed.

Lemma backoff_sleep_raises (backoff : Q) (attempt : Z) (w : World) :
  sleep_accepted backoff attempt = false ->
  exists cls msg,
    (let* secs := lift (float_mul_int backoff (2 ^ attempt)) in time_sleep secs) w
    = (Raise (Error cls msg), w).
Proof.
  unfold sleep_accepted, bind, lift, float_mul_int, time_sleep.
  destruct (Z.abs (2 ^ attempt) <? float_int_bound); [|eauto].
  destruct (Qle_bool (Qabs (backoff * inject_Z (2 ^ attempt))) clock_max); [|simpl; eauto].
  destruct (Qle_bool 0 (backoff * inject_Z (2 ^ attempt))); [discriminate|simpl; eauto].
Qed.

Lemma last_failure_shift env url g m e last :
  net env g url = Failed e ->
  last_failure env url (S g) m (Some e) = last_failure env url g (S m) last.
Proof.
  intros He. destruct m as [|m']; simpl.
  - rewrite Nat.add_0_r, He. reflexivity.
  - rewrite Nat.add_succ_r. reflexivity.
Qed.

(** The retry loop, started at attempt [s] with [m] attempts left: it stops at
    the first delivered response, fails all [m] attempts, or is cut short by a
    sleep that raises. *)
Lemma fetch_loop_spec env url N backoff timeout :
  forall (m s : nat) (last : option string) (w : World) r w',
    fetch_loop env url N backoff timeout (Z.of_nat <$> seq s m) last w = (r, w') ->
    store w' = store w /\ n_ops w' = n_ops w /\
    exists j : nat,
      (j <= m)%nat /\
      (forall i, (i < j)%nat -> exists msg, net env (n_gets w + i) url = Failed msg) /\
      ((exists text,
          (j < m)%nat /\ net env (n_gets w + j) url = Delivered text /\ r = Ok text /\
          n_gets w' = (n_gets w + S j)%nat /\
          log w' = log w ++ loop_trace url N backoff timeout s j ++ [EvGet url timeout])
       \/ (j = m /\
           r = Raise (HTTPException 502
                        ("Failed to fetch " +:+ url +:+ ": "
                         +:+ str_optional (last_failure env url (n_gets w) m last))) /\
           n_gets w' = (n_gets w + m)%nat /\
           log w' = log w ++ loop_trace url N backoff timeout s m)
       \/ ((j < m)%nat /\
           (exists msg, net env (n_gets w + j) url = Failed msg) /\
           Z.of_nat (s + j) < N - 1 /\
           sleep_accepted backoff (Z.of_nat (s + j)) = false /\
           (exists cls msg, r = Raise (Error cls msg)) /\
           n_gets w' = (n_gets w + S j)%nat /\
           log w' = log w ++ loop_trace url N backoff timeout s j ++ [EvGet url timeout])).
Proof.
  induction m as [|m IH]; intros s last w r w' Hrun.
  - simpl in Hrun. unfold raise in Hrun. injection Hrun as <- <-.
    repeat split; try reflexivity. exists 0%nat. split; [lia|]. split; [intros i Hi; lia|].
    right. left. rewrite Nat.add_0_r. unfold loop_trace. simpl. rewrite app_nil_r. auto.
  - simpl in Hrun. unfold bind at 1, requests_get in Hrun.
    destruct (net env (n_gets w) url) as [text|e] eqn:Hnet.
    + unfold ret in Hrun. injection Hrun as <- <-. simpl.
      repeat split; try reflexivity. exists 0%nat. split; [lia|]. split; [intros i Hi; lia|].
      left. exists text. rewrite Nat.add_0_r. unfold loop_trace. simpl.
      repeat split; auto; lia.
    + unfold bind at 1 in Hrun.
      set (w1 := mkWorld (store w) (S (n_gets w)) (n_ops w) (log w ++ [EvGet url timeout])) in *.
      destruct (Z.ltb_spec (Z.of_nat s) (N - 1)) as [Hguard|Hguard].
      * destruct (sleep_accepted backoff (Z.of_nat s)) eqn:Hacc.
        -- rewrite (backoff_sleep_ok _ _ w1 Hacc) in Hrun.
           apply IH in Hrun. subst w1. cbn [store n_ops n_gets log] in Hrun.
           destruct Hrun as (Hst' & Hops' & j & Hj & Hfail & Hcase).
           split; [exact Hst'|]. split; [exact Hops'|].
           exists (S j). split; [lia|]. split.
           { intros [|i] Hi.
             - exists e. rewrite Nat.add_0_r. exact Hnet.
             - destruct (Hfail i ltac:(lia)) as [msg Hmsg]. exists msg.
               rewrite Nat.add_succ_r. exact Hmsg. }
           assert (Hcons : forall k, loop_trace url N backoff timeout s (S k)
                     = [EvGet url timeout; EvSleep (backoff * inject_Z (2 ^ Z.of_nat s))]
                       ++ loop_trace url N backoff timeout (S s) k).
           { intros k. unfold loop_trace. simpl. unfold failed_attempt_events at 1.
             destruct (Z.ltb_spec (Z.of_nat s) (N - 1)); [reflexivity|lia]. }
           destruct Hcase as [(text & Hlt & Hdel & -> & Hg & Hl)
                             |[(-> & -> & Hg & Hl)
                              |(Hlt & Hf & Hgd & Hna & Hr & Hg & Hl)]].
           ++ left. exists text. rewrite Hl, Hcons.
              rewrite Nat.add_succ_r. rewrite <- !app_assoc. repeat split; auto; lia.
           ++ right. left. rewrite Hl, Hcons.
              rewrite (last_failure_shift _ _ _ _ _ last Hnet).
              rewrite <- !app_assoc. repeat split; auto; lia.
           ++ right. right. rewrite Hl, Hcons.
              replace (s + S j)%nat with (S s + j)%nat by lia.
              rewrite Nat.add_succ_r. rewrite <- !app_assoc.
              destruct Hf as [msg Hf]. repeat split; eauto; lia.
        -- destruct (backoff_sleep_raises _ _ w1 Hacc) as (cls & msg & Hs).
           rewrite Hs in Hrun. injection Hrun as <- <-. subst w1. cbn [store n_ops n_gets log].
           split; [reflexivity|]. split; [reflexivity|].
           exists 0%nat. split; [lia|]. split; [intros i Hi; lia|].
           right. right. rewrite !Nat.add_0_r. unfold loop_trace. simpl.
           repeat split; eauto; lia.
      * unfold ret in Hrun.
        apply IH in Hrun. subst w1. cbn [store n_ops n_gets log] in Hrun.
        destruct Hrun as (Hst' & Hops' & j & Hj & Hfail & Hcase).
        split; [exact Hst'|]. split; [exact Hops'|].
        exists (S j). split; [lia|]. split.
        { intros [|i] Hi.
          - exists e. rewrite Nat.add_0_r. exact Hnet.
          - destruct (Hfail i ltac:(lia)) as [msg Hmsg]. exists msg.
            rewrite Nat.add_succ_r. exact Hmsg. }
        assert (Hcons : forall k, loop_trace url N backoff timeout s (S k)
                  = [EvGet url timeout] ++ loop_trace url N backoff timeout (S s) k).
        { intros k. unfold loop_trace. simpl. unfold failed_attempt_events at 1.
          destruct (Z.ltb_spec (Z.of_nat s) (N - 1)); [lia|reflexivity]. }
        destruct Hcase as [(text & Hlt & Hdel & -> & Hg & Hl)
                          |[(-> & -> & Hg & Hl)
                           |(Hlt & Hf & Hgd & Hna & Hr & Hg & Hl)]].
        -- left. exists text. rewrite Hl, Hcons.
           rewrite Nat.add_succ_r. rewrite <- !app_assoc. repeat split; auto; lia.
        -- right. left. rewrite Hl, Hcons.
           rewrite (last_failure_shift _ _ _ _ _ last Hnet).
           rewrite <- !app_assoc. repeat split; auto; lia.
        -- lia.
Qed.

Lemma loop_trace_all_sleep url N backoff timeout (k s : nat) :
  Z.of_nat (s + k) <= N - 1 ->
  loop_trace url N backoff timeout s k
  = flat_map (fun i => [EvGet url timeout; EvSleep (backoff * inject_Z (2 ^ Z.of_nat i))])
             (seq s k).
Proof.
  revert s. induction k as [|k IH]; intros s Hs; [reflexivity|].
  unfold loop_trace in *. simpl. rewrite IH by lia.
  unfold failed_attempt_events.
  destruct (Z.ltb_spec (Z.of_nat s) (N - 1)) as [_|Hge]; [reflexivity|lia].
Qed.

Lemma loop_trace_exhausted url N backoff timeout (n : nat) :
  Z.of_nat n = N ->
  loop_trace url N backoff timeout 0 n = exhausted_trace url backoff timeout n.
Proof.
  intros Hn. destruct n as [|m]; [reflexivity|].
  unfold loop_trace, exhausted_trace. rewrite seq_S, flat_map_app. simpl.
  fold (loop_trace url N backoff timeout 0 m).
  rewrite loop_trace_all_sleep by lia. rewrite app_nil_r.
  unfold failed_attempt_events, backoff_trace.
  destruct (Z.ltb_spec (Z.of_nat m) (N - 1)) as [Hlt|_]; [lia|reflexivity].
Qed.

Lemma backoff_trace_gets url backoff timeout (k : nat) :
  length (List.filter is_get (backoff_trace url backoff timeout k)) = k.
Proof.
  unfold backoff_trace. generalize 0%nat as s.
  induction k as [|k IH]; intros s; [reflexivity|].
  simpl. rewrite IH. reflexivity.
Qed.

Lemma exhausted_trace_gets url backoff timeout (n : nat) :
  length (List.filter is_get (exhausted_trace url backoff timeout n)) = n.
Proof.
  destruct n as [|m]; [reflexivity|]. unfold exhausted_trace.
  rewrite List.filter_app, length_app, backoff_trace_gets. simpl. lia.
Qed.

Lemma new_events_app (w w' : World) (evs : list event) :
  log w' = log w ++ evs -> new_events w w' = evs.
Proof. intros Hl. unfold new_events. rewrite Hl. apply drop_app_length. Qed.

(** The whole fetch, for any arguments: where it stops, what it returns and
    what it logged. *)
Lemma fetch_with_retries_run env url max_retries backoff timeout w r w' :
  fetch_with_retries env url max_retries backoff timeout w = (r, w') ->
  store w' = store w /\ n_ops w' = n_ops w /\
  exists k : nat,
    (forall i, (i < k)%nat -> exists msg, net env (n_gets w + i) url = Failed msg) /\
    ((exists text,
        (k < Z.to_nat max_retries)%nat /\ net env (n_gets w + k) url = Delivered text /\
        r = Ok text /\ n_gets w' = (n_gets w + S k)%nat /\
        log w' = log w ++ backoff_trace url backoff timeout k ++ [EvGet url timeout])
     \/ (k = Z.to_nat max_retries /\
         r = Raise (HTTPException 502
                      ("Failed to fetch " +:+ url +:+ ": "
                       +:+ str_optional (last_failure env url (n_gets w) k None))) /\
         n_gets w' = (n_gets w + k)%nat /\
         log w' = log w ++ exhausted_trace url backoff timeout k)
     \/ (Z.of_nat k < max_retries - 1 /\
         sleep_accepted backoff (Z.of_nat k) = false /\
         (exists cls msg, r = Raise (Error cls msg)) /\
         n_gets w' = (n_gets w + S k)%nat /\
         log w' = log w ++ backoff_trace url backoff timeout k ++ [EvGet url timeout])).
Proof.
  intros Hrun. unfold fetch_with_retries, py_range in Hrun.
  apply fetch_loop_spec in Hrun.
  destruct Hrun as (Hst & Hops & k & Hk & Hfail & Hcase).
  split; [exact Hst|]. split; [exact Hops|]. exists k. split; [exact Hfail|].
  destruct Hcase as [(text & Hlt & Hdel & Hr & Hg & Hl)
                    |[(Hkm & Hr & Hg & Hl)
                     |(Hlt & _ & Hgd & Hna & Hr & Hg & Hl)]].
  - left. exists text. repeat split; auto.
    rewrite Hl. f_equal. f_equal.
    apply loop_trace_all_sleep. lia.
  - right. left. subst k. repeat split; auto.
    rewrite Hl. f_equal.
    destruct (Z.le_gt_cases 0 max_retries) as [Hn|Hn].
    + apply loop_trace_exhausted. lia.
    + replace (Z.to_nat max_retries) with 0%nat by lia. reflexivity.
  - right. right. simpl in Hgd, Hna. repeat split; auto.
    rewrite Hl. f_equal. f_equal.
    apply loop_trace_all_sleep. simpl. lia.
Qed.

(** The whole fetch within the range of the sleeps: it delivers, or it has
    used up its attempts. *)
Lemma fetch_with_retries_spec env url max_retries backoff timeout w r w' :
  backoff_in_range max_retries backoff ->
  fetch_with_retries env url max_retries backoff timeout w = (r, w') ->
  store w' = store w /\ n_ops w' = n_ops w /\
  exists k : nat,
    (forall i, (i < k)%nat -> exists msg, net env (n_gets w + i) url = Failed msg) /\
    ((exists text,
        (k < Z.to_nat max_retries)%nat /\ net env (n_gets w + k) url = Delivered text /\
        r = Ok text /\ n_gets w' = (n_gets w + S k)%nat /\
        log w' = log w ++ backoff_trace url backoff timeout k ++ [EvGet url timeout])
     \/ (k = Z.to_nat max_retries /\
         r = Raise (HTTPException 502
                      ("Failed to fetch " +:+ url +:+ ": "
                       +:+ str_optional (last_failure env url (n_gets w) k None))) /\
         n_gets w' = (n_gets w + k)%nat /\
         log w' = log w ++ exhausted_trace url backoff timeout k)).
Proof.
  intros Hrange Hrun. apply fetch_with_retries_run in Hrun.
  destruct Hrun as (Hst & Hops & k & Hfail & Hcase).
  split; [exact Hst|]. split; [exact Hops|]. exists k. split; [exact Hfail|].
  destruct Hcase as [H|[H|(Hgd & Hna & _)]]; [left; exact H|right; exact H|].
  rewrite (sleep_accepted_in_range max_retries backoff (Z.of_nat k) Hrange) in Hna by lia.
  discriminate.
Qed.

(** C1. For retry parameters within the range of the sleeps (a backoff that is
    not negative, at most 1025 attempts, and a longest wait
    [backoff * 2^(max_retries - 2)] of at most [sleep_max], a quarter of what
    the clock of [time.sleep] holds), a fetch issues at most [max_retries] GET
    requests.  It stops at the first attempt that delivers a response and
    returns that text; every failed attempt before it was followed by a sleep
    of [backoff * 2^i], [i] the 0-based index of the attempt.  When all
    [max_retries] attempts fail it raises, having slept after each attempt but
    the last. *)
Theorem fetch_with_retries_attempts_and_backoff
    (env : Env) (url : string) (max_retries : Z) (backoff : Q) (timeout : Z) (w : World) :
  0 <= max_retries <= 1025 ->
  (0 <= backoff)%Q ->
  (backoff * inject_Z (2 ^ (max_retries - 2)) <= sleep_max)%Q ->
  let r := (fetch_with_retries env url max_retries backoff timeout w).1 in
  let w' := (fetch_with_retries env url max_retries backoff timeout w).2 in
  Z.of_nat (length (List.filter is_get (new_events w w'))) <= max_retries /\
  exists k : nat,
    (forall i, (i < k)%nat -> exists msg, net env (n_gets w + i) url = Failed msg) /\
    ((exists text,
        Z.of_nat k < max_retries /\ net env (n_gets w + k) url = Delivered text /\
        r = Ok text /\
        new_events w w' = backoff_trace url backoff timeout k ++ [EvGet url timeout])
     \/ (Z.of_nat k = max_retries /\
         (exists detail, r = Raise (HTTPException 502 detail)) /\
         new_events w w' = exhausted_trace url backoff timeout k)).
Proof.
  intros Hn Hb Hmax r w'. subst r w'.
  assert (Hrange : backoff_in_range max_retries backoff)
    by (split; [exact Hb|split; [lia|exact Hmax]]).
  destruct (fetch_with_retries env url max_retries backoff timeout w) as [r w'] eqn:Hrun.
  simpl. apply fetch_with_retries_spec in Hrun; [|exact Hrange].
  destruct Hrun as (_ & _ & k & Hfail & Hcase).
  destruct Hcase as [(text & Hlt & Hdel & Hr & _ & Hl)|(Hk & Hr & _ & Hl)];
    apply new_events_app in Hl.
  - split.
    + rewrite Hl, List.filter_app, length_app, backoff_trace_gets. simpl. lia.
    + exists k. split; [exact Hfail|]. left. exists text. repeat split; auto. lia.
  - split.
    + rewrite Hl, exhausted_trace_gets. lia.
    + exists k. split; [exact Hfail|]. right. repeat split; auto; [lia|eauto].
Qed.

Lemma fetch_with_retries_attempts_and_backoff_witness :
  0 <= 3 <= 1025 /\ (0 <= 0.8)%Q /\ (0.8 * inject_Z (2 ^ (3 - 2)) <= sleep_max)%Q /\
  let r := (fetch_with_retries env_flaky "http://agent.example/card.json" 3 0.8 10 w_empty).1 in
  let w' := (fetch_with_retries env_flaky "http://agent.example/card.json" 3 0.8 10 w_empty).2 in
  Z.of_nat (length (List.filter is_get (new_events w_empty w'))) <= 3 /\
  exists k : nat,
    (forall i, (i < k)%nat ->
       exists msg, net env_flaky (n_gets w_empty + i) "http://agent.example/card.json" = Failed msg) /\
    ((exists text,
        Z.of_nat k < 3 /\
        net env_flaky (n_gets w_empty + k) "http://agent.example/card.json" = Delivered text /\
        r = Ok text /\
        new_events w_empty w'
        = backoff_trace "http://agent.example/card.json" 0.8 10 k
          ++ [EvGet "http://agent.example/card.json" 10])
     \/ (Z.of_nat k = 3 /\
         (exists detail, r = Raise (HTTPException 502 detail)) /\
         new_events w_empty w' = exhausted_trace "http://agent.example/card.json" 0.8 10 k)).
Proof.
  assert (H3 : 0 <= 3 <= 1025) by lia.
  assert (Hb : (0 <= 0.8)%Q) by (unfold Qle; simpl; lia).
  assert (Hmax : (0.8 * inject_Z (2 ^ (3 - 2)) <= sleep_max)%Q) by (vm_compute; discriminate).
  split; [exact H3|]. split; [exact Hb|]. split; [exact Hmax|].
  exact (fetch_with_retries_attempts_and_backoff
           env_flaky "http://agent.example/card.json" 3 0.8 10 w_empty H3 Hb Hmax).
Defined.

(** The flaky network: two failures with backoffs of 0.8 s and 1.6 s, then the
    text of the third attempt. *)
Example fetch_flaky_run :
  fetch_default env_flaky "http://a" w_empty
  = (Ok "{}",
     mkWorld ∅ 3 0 [EvGet "http://a" 10; EvSleep (0.8 * inject_Z (2 ^ 0));
                    EvGet "http://a" 10; EvSleep (0.8 * inject_Z (2 ^ 1));
                    EvGet "http://a" 10]).
Proof. reflexivity. Qed.

(** A negative backoff makes the first sleep raise, before the attempts are
    used up: one reason for the bounds on [backoff] above. *)
Example fetch_negative_backoff :
  fetch_with_retries env_down "http://a" 3 (-1 # 2)%Q 10 w_empty
  = (Raise (Error "ValueError" "sleep length must be non-negative"),
     mkWorld ∅ 1 0 [EvGet "http://a" 10]).
Proof. reflexivity. Qed.

(** So does a backoff that the clock cannot hold, the other reason: here ten
    thousand million seconds, with every attempt failing. *)
Example fetch_overlong_backoff :
  fetch_with_retries env_down "http://a" 3 (inject_Z (10 ^ 10)) 10 w_empty
  = (Raise (Error "OverflowError" "timestamp too large to convert to C _PyTime_t"),
     mkWorld ∅ 1 0 [EvGet "http://a" 10]).
Proof. reflexivity. Qed.

(** Without a single attempt there is no underlying failure to report. *)
Example fetch_no_attempt :
  (fetch_with_retries env_down "http://a" 0 0.8 10 w_empty).1
  = Raise (HTTPException 502 "Failed to fetch http://a: None").
Proof. reflexivity. Qed.

(** ** Scorer *)

Lemma Qle_bool_false (a b : Q) : Qle_bool a b = false -> (b < a)%Q.
Proof.
  intros H. apply Qnot_le_lt. intros Hle. apply Qle_bool_iff in Hle. congruence.
Qed.

(** Rounding does not depend on how a rational is written. *)
Lemma round_half_even_comp (x y : Q) : (x == y)%Q -> round_half_even x = round_half_even y.
Proof.
  intros H. unfold round_half_even. rewrite (Qfloor_comp _ _ H).
  assert (Hc : ((x - inject_Z (Qfloor y)) ?= 1 # 2)%Q = ((y - inject_Z (Qfloor y)) ?= 1 # 2)%Q).
  { apply Qcompare_comp; [rewrite H; reflexivity|reflexivity]. }
  rewrite Hc. reflexivity.
Qed.

Lemma py_round_comp (x y : Q) (n : Z) : (x == y)%Q -> py_round x n = py_round y n.
Proof.
  intros H. unfold py_round. f_equal. apply round_half_even_comp. rewrite H. reflexivity.
Qed.

Lemma clamp_agree (v v' : Q) :
  (v == v')%Q -> (py_max 0.0 (py_min 1.0 v) == spec_clamp v' 0 1)%Q.
Proof.
  intros H. unfold py_max, py_min, spec_clamp.
  destruct (Qle_bool 1.0 v) eqn:H1; destruct (Qle_bool v' 0) eqn:H2;
    destruct (Qle_bool 1 v') eqn:H3;
    try apply Qle_bool_iff in H1; try apply Qle_bool_iff in H2; try apply Qle_bool_iff in H3;
    try apply Qle_bool_false in H1; try apply Qle_bool_false in H2; try apply Qle_bool_false in H3.
  all: try (destruct (Qle_bool 1.0 0.0) eqn:H4; [apply Qle_bool_iff in H4 | apply Qle_bool_false in H4]).
  all: try (destruct (Qle_bool v 0.0) eqn:H5; [apply Qle_bool_iff in H5 | apply Qle_bool_false in H5]).
  all: try lra.
Qed.

Lemma round_half_even_bounds (y : Q) (lo hi : Z) :
  (inject_Z lo <= y)%Q -> (y <= inject_Z hi)%Q -> lo <= round_half_even y <= hi.
Proof.
  intros Hlo Hhi. unfold round_half_even.
  assert (Hf1 : lo <= Qfloor y).
  { rewrite <- (Qfloor_Z lo). apply Qfloor_resp_le. exact Hlo. }
  assert (Hf2 : Qfloor y <= hi).
  { rewrite <- (Qfloor_Z hi). apply Qfloor_resp_le. exact Hhi. }
  pose proof (Qfloor_le y) as Hfl.
  assert (Hup : (inject_Z (Qfloor y) < y)%Q -> Qfloor y + 1 <= hi).
  { intros Hlt. assert (Hq : (inject_Z (Qfloor y) < inject_Z hi)%Q) by lra.
    rewrite <- Zlt_Qlt in Hq. lia. }
  destruct (Qcompare_spec (y - inject_Z (Qfloor y)) (1 # 2)) as [Heq|Hlt|Hgt].
  - destruct (Z.even (Qfloor y)); [lia|]. split; [lia|]. apply Hup. lra.
  - lia.
  - split; [lia|]. apply Hup. lra.
Qed.

Lemma clamp_unit (v : Q) : (0 <= spec_clamp v 0 1)%Q /\ (spec_clamp v 0 1 <= 1)%Q.
Proof.
  unfold spec_clamp.
  destruct (Qle_bool v 0) eqn:H1; [lra|].
  destruct (Qle_bool 1 v) eqn:H2; [lra|].
  apply Qle_bool_false in H1, H2. lra.
Qed.

Lemma spec_norm_hundredths (v : Q) :
  exists h : Z, 0 <= h <= 100 /\ spec_norm v = Qmake h 100.
Proof.
  unfold spec_norm, py_round. destruct (clamp_unit v) as [H0 H1].
  exists (round_half_even (spec_clamp v 0 1 * inject_Z (10 ^ 2))). split; [|reflexivity].
  apply round_half_even_bounds.
  - change (inject_Z 0) with 0%Q. change (inject_Z (10 ^ 2)) with 100%Q. lra.
  - change (inject_Z 100) with 100%Q. change (inject_Z (10 ^ 2)) with 100%Q. lra.
Qed.

Lemma norm_spec_norm (k : Z) : norm (py_truediv k 100) = spec_norm (Qmake k 100).
Proof.
  unfold norm, spec_norm. apply py_round_comp. apply clamp_agree.
  unfold py_truediv, Qeq. simpl. lia.
Qed.

Lemma chat_factor_spec (chat_logs : option string) :
  (match chat_logs with
   | Some s => if truthy (VStr s) then py_len s else 0
   | None => 0
   end) mod 1000
  = match py_len <$> chat_logs with Some n => n mod 1000 | None => 0 end.
Proof.
  destruct chat_logs as [s|]; [|reflexivity]. simpl.
  destruct s as [|c s]; reflexivity.
Qed.

Lemma dummy_deepeval_spec (agent_card : string) (chat_logs : option string) :
  dummy_deepeval agent_card chat_logs
  = metrics_dict (spec_score (py_len agent_card) (py_len <$> chat_logs)).
Proof.
  unfold dummy_deepeval, spec_score, metrics_dict.
  rewrite chat_factor_spec. cbv zeta. cbn [mcpCompliance safety chatbot specAlignment toolsSchemaValid errors toxicity compliance harmfulness relevance helpfulness factuality latency].
  rewrite !norm_spec_norm. reflexivity.
Qed.

(** C2. The scorer is a function of the two texts alone, and its output is the
    metrics structure that the formulas of the specification give for
    [base = max(1, len(agent_card))] and [chatFactor = len(chat_logs) mod 1000]
    (0 without chat text).  For an agent card of 130 characters and no chat
    text, [spec_alignment] is 0.30 and [tools_schema_valid] is 0.43.  Equal
    texts give equal metrics. *)
Theorem scorer_matches_spec (agent_card : string) (chat_logs : option string) :
  dummy_deepeval agent_card chat_logs
  = metrics_dict (spec_score (py_len agent_card) (py_len <$> chat_logs)) /\
  (String.length agent_card = 130%nat ->
   metric (dummy_deepeval agent_card None) "mcp_compliance" "spec_alignment"
   = Some (VFloat 0.30) /\
   metric (dummy_deepeval agent_card None) "mcp_compliance" "tools_schema_valid"
   = Some (VFloat 0.43)) /\
  (forall agent_card' chat_logs',
     agent_card' = agent_card -> chat_logs' = chat_logs ->
     dummy_deepeval agent_card' chat_logs' = dummy_deepeval agent_card chat_logs).
Proof.
  split; [apply dummy_deepeval_spec|]. split.
  - intros Hlen. unfold dummy_deepeval, py_len. rewrite Hlen. split; vm_compute; reflexivity.
  - intros a' c' -> ->. reflexivity.
Qed.

(** The nine numbers of a metrics structure. *)
Lemma metrics_dict_leaves (m : Metrics) :
  errors (mcpCompliance m) = [] ->
  numeric_leaves [] (VDict (metrics_dict m))
  = [(["safety"; "compliance"], VFloat (compliance (safety m)));
     (["safety"; "toxicity"], VFloat (toxicity (safety m)));
     (["safety"; "harmfulness"], VFloat (harmfulness (safety m)));
     (["chatbot"; "factuality"], VFloat (factuality (chatbot m)));
     (["chatbot"; "relevance"], VFloat (relevance (chatbot m)));
     (["chatbot"; "latency"], VInt (latency (chatbot m)));
     (["chatbot"; "helpfulness"], VFloat (helpfulness (chatbot m)));
     (["mcp_compliance"; "spec_alignment"], VFloat (specAlignment (mcpCompliance m)));
     (["mcp_compliance"; "tools_schema_valid"], VFloat (toolsSchemaValid (mcpCompliance m)))].
Proof.
  destruct m as [[a b e] [c d f] [g h i j]]. simpl. intros ->. vm_compute. reflexivity.
Qed.

Lemma scorer_matches_spec_witness :
  String.length (string_of_list_ascii (repeat "x"%char 130)) = 130%nat /\
  metric (dummy_deepeval (string_of_list_ascii (repeat "x"%char 130)) None)
         "mcp_compliance" "spec_alignment" = Some (VFloat 0.30) /\
  metric (dummy_deepeval (string_of_list_ascii (repeat "x"%char 130)) None)
         "mcp_compliance" "tools_schema_valid" = Some (VFloat 0.43).
Proof.
  assert (Hlen : String.length (string_of_list_ascii (repeat "x"%char 130)) = 130%nat)
    by reflexivity.
  split; [exact Hlen|].
  exact (proj1 (proj2 (scorer_matches_spec
                         (string_of_list_ascii (repeat "x"%char 130)) None)) Hlen).
Defined.

Lemma unit_score_spec_norm (x : Q) : unit_score (VFloat (spec_norm x)).
Proof.
  destruct (spec_norm_hundredths x) as (h & Hh & ->).
  exists (Qmake h 100). split; [reflexivity|].
  split; [unfold Qle; simpl; lia|]. split; [unfold Qle; simpl; lia|].
  exists h. reflexivity.
Qed.

(** The claim of C3 as it stands fails: the latency of a two-character agent
    card is 102. *)
Lemma latency_is_not_a_unit_score : ~ every_number_is_unit_score.
Proof.
  intros H. specialize (H "{}" None ["chatbot"; "latency"] (VInt 102)).
  destruct H as (q & Hq & _ & Hle & _).
  - rewrite dummy_deepeval_spec, metrics_dict_leaves by reflexivity.
    do 5 apply list_elem_of_further. apply list_elem_of_here.
  - injection Hq as <-. unfold Qle in Hle. simpl in Hle. lia.
Qed.

(** C3 (amended). Every number in the scorer's output other than
    [chatbot.latency] is a float of the closed interval from 0.00 to 1.00 with
    two decimals, whatever the lengths of the texts; [chatbot.latency] is an
    integer between 100 and 149. *)
Theorem scorer_scores_in_unit_interval
    (agent_card : string) (chat_logs : option string) (p : list string) (v : value) :
  (p, v) ∈ numeric_leaves [] (VDict (dummy_deepeval agent_card chat_logs)) ->
  (p = ["chatbot"; "latency"] /\ exists z, v = VInt z /\ 100 <= z <= 149)
  \/ (p <> ["chatbot"; "latency"] /\ (exists q, v = VFloat q) /\ unit_score v).
Proof.
  rewrite dummy_deepeval_spec, metrics_dict_leaves by reflexivity.
  intros H. repeat (apply elem_of_cons in H as [H|H]); try (apply elem_of_nil in H; contradiction).
  all: injection H as -> ->.
  all: try (right; split; [discriminate|]; split; [eexists; reflexivity|];
            apply unit_score_spec_norm).
  left. split; [reflexivity|]. eexists. split; [reflexivity|]. simpl.
  pose proof (Z.mod_pos_bound (Z.max 1 (py_len agent_card)) 50). lia.
Qed.

Lemma scorer_scores_in_unit_interval_witness :
  (["mcp_compliance"; "spec_alignment"], VFloat 0.02)
    ∈ numeric_leaves [] (VDict (dummy_deepeval "{}" None)) /\
  ((["mcp_compliance"; "spec_alignment"] = ["chatbot"; "latency"]
    /\ exists z, VFloat 0.02 = VInt z /\ 100 <= z <= 149)
   \/ (["mcp_compliance"; "spec_alignment"] <> ["chatbot"; "latency"]
       /\ (exists q, VFloat 0.02 = VFloat q) /\ unit_score (VFloat 0.02))).
Proof.
  assert (Hin : (["mcp_compliance"; "spec_alignment"], VFloat 0.02)
                  ∈ numeric_leaves [] (VDict (dummy_deepeval "{}" None))).
  { vm_compute. do 7 apply list_elem_of_further. apply list_elem_of_here. }
  split; [exact Hin|].
  exact (scorer_scores_in_unit_interval "{}" None _ _ Hin).
Defined.

(** ** Reporter *)

Lemma rbind_ok_inv {A B} (r : result A) (k : A -> result B) (b : B) :
  rbind r k = Ok b -> exists a, r = Ok a /\ k a = Ok b.
Proof. destruct r as [a|e]; simpl; [eauto|discriminate]. Qed.

Lemma py_get_ok_inv (v : value) (k : string) (dflt x : value) :
  py_get v k dflt = Ok x -> exists d, v = VDict d /\ x = default dflt (d !! k).
Proof. destruct v; simpl; try discriminate. intros H. injection H as <-. eauto. Qed.

Lemma nl_append_nonempty (s : string) : nl +:+ s <> EmptyString.
Proof. unfold nl. simpl. discriminate. Qed.

Lemma group_ok_of_get (m : dict) (g : string) (d : dict) :
  default (VDict ∅) (m !! g) = VDict d -> group_ok m g.
Proof. unfold group_ok. destruct (m !! g) as [[]|]; simpl; try discriminate; auto. Qed.

Lemma group_ok_get (m : dict) (g : string) :
  group_ok m g -> exists d, default (VDict ∅) (m !! g) = VDict d.
Proof. unfold group_ok. destruct (m !! g) as [[]|]; simpl; try contradiction; eauto. Qed.

Lemma metrics_ok_get (evaluation : dict) :
  metrics_ok evaluation ->
  exists m, default (VDict ∅) (evaluation !! "metrics") = VDict m /\
            group_ok m "safety" /\ group_ok m "mcp_compliance" /\ group_ok m "chatbot".
Proof.
  unfold metrics_ok. destruct (evaluation !! "metrics") as [[]|]; simpl; try contradiction.
  - intros H. eauto.
  - intros _. exists ∅. unfold group_ok. rewrite !lookup_empty. auto.
Qed.

(** The reporter returns a page for every record whose metrics it can read. *)
Lemma render_html_report_total py_repr (evaluation : dict) :
  metrics_ok evaluation -> exists html, render_html_report py_repr evaluation = Ok html.
Proof.
  intros H. apply metrics_ok_get in H as (m & Hm & Hs & Hc & Hb).
  apply group_ok_get in Hs as [safety Hs]. apply group_ok_get in Hc as [mcp Hc].
  apply group_ok_get in Hb as [bot Hb].
  unfold render_html_report. rewrite Hm. unfold py_get at 1 2 3. rewrite Hs, Hc, Hb.
  unfold rbind, py_get. eexists. reflexivity.
Qed.

(** It returns a page for no other record, and never an empty one. *)
Lemma render_html_report_ok_inv py_repr (evaluation : dict) (html : string) :
  render_html_report py_repr evaluation = Ok html -> metrics_ok evaluation /\ html <> EmptyString.
Proof.
  unfold render_html_report. intros H.
  apply rbind_ok_inv in H as (safety & Hs & H). apply rbind_ok_inv in H as (mcp & Hc & H).
  apply rbind_ok_inv in H as (bot & Hb & H).
  apply rbind_ok_inv in H as (x1 & H1 & H). apply rbind_ok_inv in H as (x2 & _ & H).
  apply rbind_ok_inv in H as (x3 & H3 & H). apply rbind_ok_inv in H as (x4 & _ & H).
  apply rbind_ok_inv in H as (x5 & _ & H). apply rbind_ok_inv in H as (x6 & H6 & H).
  apply rbind_ok_inv in H as (x7 & _ & H). apply rbind_ok_inv in H as (x8 & _ & H).
  apply rbind_ok_inv in H as (x9 & _ & H). injection H as <-.
  split; [|apply nl_append_nonempty].
  apply py_get_ok_inv in Hs as (m & Hm & ->). apply py_get_ok_inv in Hc as (m' & Hm' & ->).
  apply py_get_ok_inv in Hb as (m'' & Hm'' & ->).
  apply py_get_ok_inv in H1 as (mcp & Hmcp & _). apply py_get_ok_inv in H3 as (safety & Hsafety & _).
  apply py_get_ok_inv in H6 as (bot & Hbot & _).
  rewrite Hm in Hm', Hm''. injection Hm' as <-. injection Hm'' as <-.
  unfold metrics_ok. destruct (evaluation !! "metrics") as [v|]; [|exact I].
  simpl in Hm. subst v. repeat split; eapply group_ok_of_get; eassumption.
Qed.

(** ** Evaluation service *)

Lemma backoff_trace_no_store url backoff timeout k :
  List.filter is_store_event (backoff_trace url backoff timeout k) = [].
Proof.
  unfold backoff_trace. generalize 0%nat as s.
  induction k as [|k IH]; intros s; [reflexivity|]. simpl. apply IH.
Qed.

Lemma exhausted_trace_no_store url backoff timeout n :
  List.filter is_store_event (exhausted_trace url backoff timeout n) = [].
Proof.
  destruct n as [|m]; [reflexivity|]. unfold exhausted_trace.
  rewrite List.filter_app, backoff_trace_no_store. reflexivity.
Qed.

Lemma default_backoff_nonneg : (0 <= 0.8)%Q.
Proof. unfold Qle. simpl. lia. Qed.

(** The defaults of line 26, three attempts and a backoff of 0.8 s, sleep for
    1.6 s at most. *)
Lemma default_backoff_in_range : backoff_in_range 3 0.8.
Proof.
  split; [exact default_backoff_nonneg|]. split; [lia|]. vm_compute. discriminate.
Qed.

(** A fetch with the defaults leaves the store alone and raises nothing but
    the 502 of line 37. *)
Lemma fetch_default_spec env url w r w' :
  fetch_default env url w = (r, w') ->
  store w' = store w /\ n_ops w' = n_ops w /\
  (exists evs, log w' = log w ++ evs /\ List.filter is_store_event evs = []) /\
  (forall e, r = Raise e -> exists d, e = HTTPException 502 d).
Proof.
  intros Hrun. unfold fetch_default in Hrun.
  apply fetch_with_retries_spec in Hrun; [|exact default_backoff_in_range].
  destruct Hrun as (Hst & Hops & k & _ & Hcase).
  split; [exact Hst|]. split; [exact Hops|].
  destruct Hcase as [(text & _ & _ & -> & _ & Hl)|(_ & -> & _ & Hl)].
  - split.
    + eexists. split; [exact Hl|].
      rewrite List.filter_app, backoff_trace_no_store. reflexivity.
    + intros e He. discriminate.
  - split.
    + eexists. split; [exact Hl|]. apply exhausted_trace_no_store.
    + intros e He. injection He as <-. eauto.
Qed.

Lemma fetch_texts_spec env req w r w' :
  fetch_texts env req w = (r, w') ->
  store w' = store w /\ n_ops w' = n_ops w /\
  (exists evs, log w' = log w ++ evs /\ List.filter is_store_event evs = []) /\
  (forall e, r = Raise e -> exists d, e = HTTPException 502 d).
Proof.
  unfold fetch_texts, bind, ret. intros Hrun.
  destruct (fetch_default env (agent_card_url req) w) as [[a|e1] w1] eqn:H1;
    apply fetch_default_spec in H1; destruct H1 as (Hs1 & Ho1 & (ev1 & Hl1 & Hf1) & He1).
  - destruct (chat_url req) as [u|].
    + destruct (fetch_default env u w1) as [[c|e2] w2] eqn:H2;
        apply fetch_default_spec in H2; destruct H2 as (Hs2 & Ho2 & (ev2 & Hl2 & Hf2) & He2);
        injection Hrun as <- <-.
      all: split; [congruence|]; split; [congruence|]; split.
      all: try (exists (ev1 ++ ev2); split;
                [rewrite Hl2, Hl1, app_assoc; reflexivity
                |rewrite List.filter_app, Hf1, Hf2; reflexivity]).
      * intros e He. discriminate.
      * intros e He. injection He as <-. apply He2. reflexivity.
    + injection Hrun as <- <-. split; [congruence|]. split; [congruence|]. split.
      * exists ev1. auto.
      * intros e He. discriminate.
  - injection Hrun as <- <-. split; [congruence|]. split; [congruence|]. split.
    + exists ev1. auto.
    + intros e He. injection He as <-. apply He1. reflexivity.
Qed.

Lemma update_one_existing env oid fields w d :
  store w !! oid = Some d ->
  update_one env oid fields w
  = (answered_result (db_answers env (n_ops w)) (Ok tt),
     mkWorld (answered_store (db_answers env (n_ops w)) (store w)
                             (<[oid := dict_update d fields]> (store w)))
             (n_gets w) (S (n_ops w)) (log w ++ [EvUpdate oid fields])).
Proof.
  intros Hd. unfold update_one, store_call. rewrite Hd.
  destruct (db_answers env (n_ops w)) as [|[|] msg]; reflexivity.
Qed.

Lemma dummy_metrics_ok req oid agent_card chat_logs :
  metrics_ok (temp_doc_of req oid (dummy_deepeval agent_card chat_logs)).
Proof.
  unfold metrics_ok, temp_doc_of.
  rewrite lookup_insert_ne by discriminate. rewrite lookup_insert_ne by discriminate.
  rewrite lookup_insert_ne by discriminate. rewrite lookup_insert_eq.
  unfold group_ok, dummy_deepeval. cbv zeta.
  repeat split.
Qed.

(** [evaluate] once the record is in the store: the [try] block over the
    fetch phase, and the two handlers. *)
Lemma evaluate_after_insert py_repr env req w :
  db_configured env = true ->
  db_answers env (n_ops w) = DbOk ->
  store w !! new_oid env (n_ops w) = None ->
  evaluate py_repr env req w
  = let oid := new_oid env (n_ops w) in
    try_except
      (let* texts := fetch_texts env req in
       let metrics := dummy_deepeval texts.1 texts.2 in
       let* html := lift (render_html_report py_repr (temp_doc_of req oid metrics)) in
       let* _ := update_one env oid (completed_update metrics html) in
       ret (completed_reply oid metrics))
      (fun e => let* _ := update_one env oid failed_update in raise e)
      (fun msg => let* _ := update_one env oid (failed_update_with msg) in
                  raise (HTTPException 500 ("Evaluation failed: " +:+ msg)))
      (after_insert env req w).
Proof.
  destruct req as [agent chat]. intros Hdb Hans Hfresh. unfold evaluate. rewrite Hdb. change (negb true) with false. cbv beta iota.
  unfold bind at 1. unfold insert_one, store_call. cbv beta zeta. rewrite Hfresh, Hans.
  cbn [agent_card_url chat_url].
  change (Evaluation_model_dump agent chat "running") with (running_doc (mkRequest agent chat)).
  fold (after_insert env (mkRequest agent chat) w).
  unfold try_except, fetch_texts, bind, ret. cbn [agent_card_url chat_url].
  destruct (fetch_default env agent (after_insert env (mkRequest agent chat) w)) as [[a|e1] w1];
    [|reflexivity].
  cbn [chat_url]. destruct chat as [u|].
  - destruct (fetch_default env u w1) as [[c|e2] w2]; reflexivity.
  - reflexivity.
Qed.

Lemma after_insert_lookup env req w :
  store (after_insert env req w) !! new_oid env (n_ops w) = Some (running_doc req).
Proof. unfold after_insert. simpl. apply lookup_insert_eq. Qed.

(** The fetch phase fails: the first handler marks the record and re-raises. *)
Lemma evaluate_fetch_failed py_repr env req w e w2 :
  db_configured env = true ->
  db_answers env (n_ops w) = DbOk ->
  store w !! new_oid env (n_ops w) = None ->
  fetch_texts env req (after_insert env req w) = (Raise e, w2) ->
  let oid := new_oid env (n_ops w) in
  let ans := db_answers env (S (n_ops w)) in
  evaluate py_repr env req w
  = (answered_result ans (Raise e),
     mkWorld (answered_store ans (<[oid := running_doc req]> (store w))
                (<[oid := dict_update (running_doc req) failed_update]> (store w)))
             (n_gets w2) (S (S (n_ops w))) (log w2 ++ [EvUpdate oid failed_update])).
Proof.
  intros Hdb Hans Hfresh Hfetch oid ans.
  rewrite evaluate_after_insert by assumption. cbv zeta. fold oid.
  pose proof (fetch_texts_spec _ _ _ _ _ Hfetch) as (Hst & Hops & _ & He).
  destruct (He e eq_refl) as [d ->].
  unfold try_except. unfold bind at 1. rewrite Hfetch. unfold bind.
  rewrite (update_one_existing env oid failed_update w2 (running_doc req))
    by (rewrite Hst; apply after_insert_lookup).
  rewrite Hst, Hops. unfold after_insert. simpl store. simpl n_ops. fold ans.
  rewrite insert_insert_eq.
  destruct ans as [|[|] msg]; reflexivity.
Qed.

(** The fetch phase delivers: the page is rendered and the record completed in
    one update; when that update raises, the second handler stores the
    message. *)
Lemma evaluate_fetched py_repr env req w texts w2 :
  db_configured env = true ->
  db_answers env (n_ops w) = DbOk ->
  store w !! new_oid env (n_ops w) = None ->
  fetch_texts env req (after_insert env req w) = (Ok texts, w2) ->
  let oid := new_oid env (n_ops w) in
  let metrics := dummy_deepeval texts.1 texts.2 in
  exists html,
    render_html_report py_repr (temp_doc_of req oid metrics) = Ok html /\
    let completed := dict_update (running_doc req) (completed_update metrics html) in
    evaluate py_repr env req w
    = match db_answers env (S (n_ops w)) with
      | DbOk =>
          (Ok (completed_reply oid metrics),
           mkWorld (<[oid := completed]> (store w)) (n_gets w2) (S (S (n_ops w)))
                   (log w2 ++ [EvUpdate oid (completed_update metrics html)]))
      | DbFail applied msg =>
          let d := if applied then completed else running_doc req in
          let ans := db_answers env (S (S (n_ops w))) in
          (answered_result ans (Raise (HTTPException 500 ("Evaluation failed: " +:+ msg))),
           mkWorld (answered_store ans (<[oid := d]> (store w))
                      (<[oid := dict_update d (failed_update_with msg)]> (store w)))
                   (n_gets w2) (S (S (S (n_ops w))))
                   (log w2 ++ [EvUpdate oid (completed_update metrics html);
                               EvUpdate oid (failed_update_with msg)]))
      end.
Proof.
  intros Hdb Hans Hfresh Hfetch oid metrics.
  destruct (render_html_report_total py_repr (temp_doc_of req oid metrics)) as [html Hhtml];
    [apply dummy_metrics_ok|].
  exists html. split; [exact Hhtml|]. cbv zeta.
  rewrite evaluate_after_insert by assumption. cbv zeta. fold oid.
  pose proof (fetch_texts_spec _ _ _ _ _ Hfetch) as (Hst & Hops & _ & _).
  unfold try_except. unfold bind at 1. rewrite Hfetch. fold metrics.
  unfold bind at 1. unfold lift at 1. rewrite Hhtml.
  unfold bind at 1.
  rewrite (update_one_existing env oid _ w2 (running_doc req))
    by (rewrite Hst; apply after_insert_lookup).
  rewrite Hst, Hops. unfold after_insert at 1 2 3. simpl store. simpl n_ops.
  rewrite insert_insert_eq.
  destruct (db_answers env (S (n_ops w))) as [|applied msg]; [reflexivity|].
  cbn [answered_result]. unfold bind.
  destruct applied; cbn [answered_store].
  all: erewrite update_one_existing by (cbn [store]; apply lookup_insert_eq).
  all: cbn [store n_ops n_gets log]; rewrite <- app_assoc; cbn [app].
  all: rewrite insert_insert_eq.
  all: destruct (db_answers env (S (S (n_ops w)))) as [|[|] msg2]; reflexivity.
Qed.

Lemma record_inv_running req : record_inv (running_doc req).
Proof. destruct req as [a c]. split; vm_compute; [reflexivity|discriminate]. Qed.

Lemma record_inv_completed req m h :
  record_inv (dict_update (running_doc req) (completed_update m h)).
Proof. destruct req as [a c]. split; vm_compute; [reflexivity|discriminate]. Qed.

Lemma record_inv_failed req : record_inv (dict_update (running_doc req) failed_update).
Proof. destruct req as [a c]. split; vm_compute; [reflexivity|discriminate]. Qed.

Lemma record_inv_failed_with req msg :
  record_inv (dict_update (running_doc req) (failed_update_with msg)).
Proof. destruct req as [a c]. split; vm_compute; reflexivity. Qed.

Lemma record_inv_completed_failed req m h msg :
  record_inv (dict_update (dict_update (running_doc req) (completed_update m h))
                          (failed_update_with msg)).
Proof. destruct req as [a c]. split; vm_compute; reflexivity. Qed.

Lemma store_inv_insert (st : gmap string dict) (oid : string) (d : dict) :
  store_inv st -> record_inv d -> store_inv (<[oid := d]> st).
Proof.
  intros Hst Hd oid' d' Hl. destruct (decide (oid = oid')) as [->|Hne].
  - rewrite lookup_insert_eq in Hl. injection Hl as <-. exact Hd.
  - rewrite lookup_insert_ne in Hl by exact Hne. eapply Hst, Hl.
Qed.

(** What an evaluation does to the collection: nothing, or one new record that
    satisfies the invariant. *)
Lemma evaluate_store py_repr env req w :
  let st' := store (evaluate py_repr env req w).2 in
  st' = store w \/
  exists d, store w !! new_oid env (n_ops w) = None /\
            st' = <[new_oid env (n_ops w) := d]> (store w) /\ record_inv d.
Proof.
  cbv zeta.
  destruct (db_configured env) eqn:Hdb; cycle 1.
  { left. unfold evaluate. rewrite Hdb. reflexivity. }
  destruct (store w !! new_oid env (n_ops w)) as [d0|] eqn:Hfresh.
  { left. unfold evaluate, bind, insert_one, store_call. rewrite Hdb. cbv beta zeta.
    change (negb true) with false. cbv beta iota. rewrite Hfresh.
    destruct (db_answers env (n_ops w)) as [|[|] msg]; reflexivity. }
  destruct (db_answers env (n_ops w)) as [|applied msg] eqn:Hans; cycle 1.
  { unfold evaluate, bind, insert_one, store_call. rewrite Hdb. cbv beta zeta.
    change (negb true) with false. cbv beta iota. rewrite Hfresh, Hans.
    destruct applied; [right|left; reflexivity].
    exists (Evaluation_model_dump (agent_card_url req) (chat_url req) "running").
    split; [reflexivity|]. split; [reflexivity|]. apply record_inv_running. }
  right.
  destruct (fetch_texts env req (after_insert env req w)) as [[texts|e] w2] eqn:Hfetch.
  - destruct (evaluate_fetched py_repr env req w texts w2 Hdb Hans Hfresh Hfetch)
      as (html & _ & ->).
    destruct (db_answers env (S (n_ops w))) as [|applied msg].
    + eexists. split; [reflexivity|]. split; [reflexivity|]. apply record_inv_completed.
    + cbv zeta. cbn [snd store].
      destruct (db_answers env (S (S (n_ops w)))) as [|[|] msg2]; cbn [answered_store];
        destruct applied; eexists; (split; [reflexivity|]); (split; [reflexivity|]);
        auto using record_inv_running, record_inv_completed, record_inv_failed_with,
                   record_inv_completed_failed.
  - rewrite (evaluate_fetch_failed py_repr env req w e w2 Hdb Hans Hfresh Hfetch).
    cbn [snd store].
    destruct (db_answers env (S (n_ops w))) as [|[|] msg]; cbn [answered_store];
      eexists; (split; [reflexivity|]); (split; [reflexivity|]);
      auto using record_inv_running, record_inv_failed.
Qed.

(** Reading never changes the collection. *)
Lemma load_evaluation_store env evaluation_id w :
  store (load_evaluation env evaluation_id w).2 = store w.
Proof.
  unfold load_evaluation. destruct (negb (db_configured env)); [reflexivity|].
  destruct (ObjectId evaluation_id) as [oid|e]; [|reflexivity].
  unfold bind, find_one, store_call.
  destruct (db_answers env (n_ops w)) as [|[|] msg]; try reflexivity.
  destruct (store w !! oid) as [d|]; simpl; [|reflexivity].
  destruct (negb (bool_decide (<["_id":=VOid oid]> d = ∅))); reflexivity.
Qed.

Lemma get_evaluation_store py_repr env evaluation_id w :
  store (get_evaluation py_repr env evaluation_id w).2 = store w.
Proof.
  unfold get_evaluation, bind. pose proof (load_evaluation_store env evaluation_id w) as H.
  destruct (load_evaluation env evaluation_id w) as [[d|e] w1]; exact H.
Qed.

Lemma get_evaluation_report_store py_repr env evaluation_id w :
  store (get_evaluation_report py_repr env evaluation_id w).2 = store w.
Proof.
  unfold get_evaluation_report, bind. pose proof (load_evaluation_store env evaluation_id w) as H.
  destruct (load_evaluation env evaluation_id w) as [[d|e] w1]; [|exact H].
  destruct (negb (truthy (dict_get d "html_report"))).
  - unfold lift. destruct (render_html_report py_repr _) as [h|e]; exact H.
  - exact H.
Qed.

Lemma load_evaluation_found env evaluation_id oid w d :
  db_configured env = true ->
  ObjectId evaluation_id = Ok oid ->
  db_answers env (n_ops w) = DbOk ->
  store w !! oid = Some d ->
  load_evaluation env evaluation_id w
  = (Ok (<["_id" := VOid oid]> d),
     mkWorld (store w) (n_gets w) (S (n_ops w)) (log w ++ [EvFind oid])).
Proof.
  intros Hdb Hid Hans Hd. unfold load_evaluation. rewrite Hdb, Hid.
  change (negb true) with false. cbv beta iota.
  unfold bind, find_one, store_call. cbv beta iota zeta. rewrite Hans, Hd. simpl.
  rewrite bool_decide_eq_false_2 by apply insert_non_empty. reflexivity.
Qed.

Lemma dict_get_with_id (d : dict) (oid k : string) :
  k <> "_id" -> dict_get (<["_id" := VOid oid]> d) k = dict_get d k.
Proof. intros Hk. unfold dict_get. rewrite lookup_insert_ne by congruence. reflexivity. Qed.

(** The report route on a stored record: the stored page when it is truthy,
    otherwise whatever the reporter makes of the record's view. *)
Lemma get_evaluation_report_found py_repr env evaluation_id oid w d :
  db_configured env = true ->
  ObjectId evaluation_id = Ok oid ->
  db_answers env (n_ops w) = DbOk ->
  store w !! oid = Some d ->
  (get_evaluation_report py_repr env evaluation_id w).1
  = if truthy (dict_get d "html_report")
    then HTMLResponse (dict_get d "html_report")
    else render_html_report py_repr (report_view d).
Proof.
  intros Hdb Hid Hans Hd. unfold get_evaluation_report, bind.
  rewrite (load_evaluation_found _ _ _ _ _ Hdb Hid Hans Hd).
  rewrite !dict_get_with_id by discriminate. fold (report_view d).
  destruct (truthy (dict_get d "html_report")); simpl; [reflexivity|].
  unfold lift. destruct (render_html_report py_repr (report_view d)); reflexivity.
Qed.

Lemma fetch_exhausted env url max_retries backoff timeout w (msgs : nat -> string) r w' :
  0 < max_retries ->
  backoff_in_range max_retries backoff ->
  (forall i, (i < Z.to_nat max_retries)%nat -> net env (n_gets w + i) url = Failed (msgs i)) ->
  fetch_with_retries env url max_retries backoff timeout w = (r, w') ->
  r = Raise (HTTPException 502
               ("Failed to fetch " +:+ url +:+ ": " +:+ msgs (Z.to_nat max_retries - 1)%nat)).
Proof.
  intros Hn Hb Hfail Hrun. apply fetch_with_retries_spec in Hrun; [|exact Hb].
  destruct Hrun as (_ & _ & k & _ & [(text & Hk & Hdel & _)|(-> & -> & _)]).
  - rewrite (Hfail k Hk) in Hdel. discriminate.
  - destruct (Z.to_nat max_retries) as [|m] eqn:Hm; [lia|].
    simpl. rewrite (Hfail m) by lia. simpl. rewrite Nat.sub_0_r. reflexivity.
Qed.

Lemma fetch_texts_agent_exhausted env req w (msgs : nat -> string) :
  (forall i, (i < 3)%nat -> net env (n_gets w + i) (agent_card_url req) = Failed (msgs i)) ->
  (fetch_texts env req w).1
  = Raise (HTTPException 502
             ("Failed to fetch " +:+ agent_card_url req +:+ ": " +:+ msgs 2%nat)).
Proof.
  intros Hfail. unfold fetch_texts, bind.
  destruct (fetch_default env (agent_card_url req) w) as [r w1] eqn:Hrun.
  unfold fetch_default in Hrun.
  apply (fetch_exhausted _ _ _ _ _ _ msgs) in Hrun;
    [|lia|exact default_backoff_in_range|exact Hfail].
  subst r. reflexivity.
Qed.

(** C5. When every attempt of a fetch fails, the fetcher raises the HTTP
    error 502 whose detail is [Failed to fetch <url>: <error>], with the URL it
    was asked for and the message of the last failure: this for retry
    parameters within the range of the sleeps (a backoff that is not negative,
    at most 1025 attempts, and a longest wait [backoff * 2^(max_retries - 2)]
    of at most [sleep_max]), outside of which a sleep can raise first.  Through
    [POST /evaluate], which fetches with the defaults, the caller receives that
    error as status 502 with that detail, here for the agent card URL after its
    three attempts. *)
Theorem fetch_exhausted_surfaces_502 :
  (forall (env : Env) (url : string) (max_retries : Z) (backoff : Q) (timeout : Z)
          (w : World) (msgs : nat -> string),
     0 < max_retries <= 1025 ->
     (0 <= backoff)%Q ->
     (backoff * inject_Z (2 ^ (max_retries - 2)) <= sleep_max)%Q ->
     (forall i, (i < Z.to_nat max_retries)%nat ->
                net env (n_gets w + i) url = Failed (msgs i)) ->
     (fetch_with_retries env url max_retries backoff timeout w).1
     = Raise (HTTPException 502
                ("Failed to fetch " +:+ url +:+ ": "
                 +:+ msgs (Z.to_nat max_retries - 1)%nat))) /\
  (forall (py_repr : value -> string) (HttpUrl : string -> option string) (env : Env)
          (body : RequestBody) (req : EvaluationRequest) (w : World) (msgs : nat -> string),
     validate_request HttpUrl body = Some req ->
     db_configured env = true ->
     db_answers env (n_ops w) = DbOk ->
     store w !! new_oid env (n_ops w) = None ->
     (forall i, (i < 3)%nat ->
                net env (n_gets w + i) (agent_card_url req) = Failed (msgs i)) ->
     db_answers env (S (n_ops w)) = DbOk ->
     (post_evaluate py_repr HttpUrl env body w).1
     = mkResponse 502
         (VDict (<["detail" := VStr ("Failed to fetch " +:+ agent_card_url req +:+ ": "
                                     +:+ msgs 2%nat)]> ∅))).
Proof.
  split.
  - intros env url max_retries backoff timeout w msgs Hn Hb Hmax Hfail.
    destruct (fetch_with_retries env url max_retries backoff timeout w) as [r w'] eqn:Hrun.
    simpl. eapply fetch_exhausted; [| |exact Hfail|exact Hrun]; [lia|].
    split; [exact Hb|]. split; [lia|exact Hmax].
  - intros py_repr HttpUrl env body req w msgs Hval Hdb Hans Hfresh Hfail Hans'.
    unfold post_evaluate. rewrite Hval.
    destruct (fetch_texts env req (after_insert env req w)) as [r w2] eqn:Hfetch.
    pose proof (fetch_texts_agent_exhausted env req (after_insert env req w) msgs Hfail) as Hr.
    rewrite Hfetch in Hr. simpl in Hr. subst r.
    rewrite (evaluate_fetch_failed py_repr env req w _ w2 Hdb Hans Hfresh Hfetch).
    rewrite Hans'. reflexivity.
Qed.

Lemma fetch_exhausted_surfaces_502_witness :
  (fetch_with_retries env_down "http://agent.example/card.json" 3 0.8 10 w_empty).1
  = Raise (HTTPException 502 "Failed to fetch http://agent.example/card.json: timed out") /\
  (post_evaluate sample_repr sample_HttpUrl env_down sample_body w_empty).1
  = mkResponse 502
      (VDict (<["detail" :=
                 VStr "Failed to fetch http://agent.example/card.json: timed out"]> ∅)).
Proof.
  split.
  - apply (proj1 fetch_exhausted_surfaces_502 env_down "http://agent.example/card.json"
             3 0.8%Q 10 w_empty (fun _ => "timed out")).
    + lia.
    + unfold Qle. simpl. lia.
    + vm_compute. discriminate.
    + intros i Hi. reflexivity.
  - exact (proj2 fetch_exhausted_surfaces_502 sample_repr sample_HttpUrl env_down
             sample_body sample_request w_empty (fun _ => "timed out")
             eq_refl eq_refl eq_refl eq_refl (fun _ _ => eq_refl) eq_refl).
Defined.

Lemma dict_update_failed (d : dict) :
  dict_update d failed_update = <["status" := VStr "failed"]> d.
Proof.
  unfold dict_update, failed_update. rewrite insert_empty.
  symmetry. apply insert_union_singleton_l.
Qed.

(** C4. The two failure paths of [POST /evaluate], once the record is in the
    store.  When the fetch phase raises (the 502 of an exhausted fetch), the
    first handler sets [status] to [failed] and nothing else, so [error] stays
    [None], and the same exception goes on to the caller.  When the update that
    would complete the record raises with message [msg], the second handler
    sets [status] to [failed] and [error] to [msg], and the caller gets the
    500 [Evaluation failed: msg].  Both under a handler update that the store
    accepts. *)
Theorem evaluate_failure_paths
    (py_repr : value -> string) (env : Env) (req : EvaluationRequest) (w : World) :
  db_configured env = true ->
  db_answers env (n_ops w) = DbOk ->
  store w !! new_oid env (n_ops w) = None ->
  let oid := new_oid env (n_ops w) in
  let out := evaluate py_repr env req w in
  (forall e,
     (fetch_texts env req (after_insert env req w)).1 = Raise e ->
     db_answers env (S (n_ops w)) = DbOk ->
     out.1 = Raise e /\
     (exists detail, e = HTTPException 502 detail) /\
     store out.2 = <[oid := <["status" := VStr "failed"]> (running_doc req)]> (store w) /\
     (<["status" := VStr "failed"]> (running_doc req)) !! "error" = Some VNone) /\
  (forall texts applied msg,
     (fetch_texts env req (after_insert env req w)).1 = Ok texts ->
     db_answers env (S (n_ops w)) = DbFail applied msg ->
     db_answers env (S (S (n_ops w))) = DbOk ->
     out.1 = Raise (HTTPException 500 ("Evaluation failed: " +:+ msg)) /\
     exists d, store out.2 !! oid = Some d /\
               d !! "status" = Some (VStr "failed") /\
               d !! "error" = Some (VStr msg)).
Proof.
  intros Hdb Hans Hfresh oid out. subst out. split.
  - intros e Hfetch Hans'.
    destruct (fetch_texts env req (after_insert env req w)) as [r w2] eqn:Hrun.
    simpl in Hfetch. subst r.
    pose proof (fetch_texts_spec _ _ _ _ _ Hrun) as (_ & _ & _ & He).
    rewrite (evaluate_fetch_failed py_repr env req w e w2 Hdb Hans Hfresh Hrun).
    rewrite Hans'. cbn [fst snd store answered_result answered_store].
    rewrite dict_update_failed. fold oid.
    split; [reflexivity|]. split; [apply He; reflexivity|]. split; [reflexivity|].
    destruct req as [a c]. vm_compute. reflexivity.
  - intros texts applied msg Hfetch Hans' Hans''.
    destruct (fetch_texts env req (after_insert env req w)) as [r w2] eqn:Hrun.
    simpl in Hfetch. subst r.
    destruct (evaluate_fetched py_repr env req w texts w2 Hdb Hans Hfresh Hrun)
      as (html & _ & ->).
    rewrite Hans', Hans''. cbv zeta. cbn [fst snd store answered_result answered_store].
    split; [reflexivity|]. fold oid. eexists. split; [apply lookup_insert_eq|].
    unfold dict_update, failed_update_with.
    split.
    + apply lookup_union_Some_l. apply lookup_insert_eq.
    + apply lookup_union_Some_l. rewrite lookup_insert_ne by discriminate.
      apply lookup_insert_eq.
Qed.

Lemma evaluate_failure_paths_witness :
  ((evaluate sample_repr env_down sample_request w_empty).1
   = Raise (HTTPException 502 "Failed to fetch http://agent.example/card.json: timed out") /\
   store (evaluate sample_repr env_down sample_request w_empty).2
   = <[sample_oid := <["status" := VStr "failed"]> (running_doc sample_request)]> ∅) /\
  ((evaluate sample_repr env_store_fault sample_request w_empty).1
   = Raise (HTTPException 500 "Evaluation failed: not primary") /\
   exists d, store (evaluate sample_repr env_store_fault sample_request w_empty).2 !! sample_oid
             = Some d /\
             d !! "status" = Some (VStr "failed") /\ d !! "error" = Some (VStr "not primary")).
Proof.
  split.
  - destruct (proj1 (evaluate_failure_paths sample_repr env_down sample_request w_empty
                       eq_refl eq_refl eq_refl)
                    (HTTPException 502 "Failed to fetch http://agent.example/card.json: timed out")
                    eq_refl eq_refl) as (H1 & _ & H2 & _).
    split; [exact H1|exact H2].
  - exact (proj2 (evaluate_failure_paths sample_repr env_store_fault sample_request w_empty
                    eq_refl eq_refl eq_refl)
                 ("{}", None) false "not primary" eq_refl eq_refl eq_refl).
Defined.

(** A successful evaluation: what it returned, stored and logged. *)
Lemma evaluate_ok_inv py_repr env req w resp :
  (evaluate py_repr env req w).1 = Ok resp ->
  let oid := new_oid env (n_ops w) in
  exists texts html,
    let metrics := dummy_deepeval texts.1 texts.2 in
    resp = completed_reply oid metrics /\
    render_html_report py_repr (temp_doc_of req oid metrics) = Ok html /\
    store (evaluate py_repr env req w).2
    = <[oid := dict_update (running_doc req) (completed_update metrics html)]> (store w) /\
    List.filter is_store_event (new_events w (evaluate py_repr env req w).2)
    = [EvInsert (running_doc req); EvUpdate oid (completed_update metrics html)].
Proof.
  intros Hok oid.
  destruct (db_configured env) eqn:Hdb; cycle 1.
  { unfold evaluate in Hok. rewrite Hdb in Hok. discriminate. }
  destruct (store w !! new_oid env (n_ops w)) as [d0|] eqn:Hfresh.
  { unfold evaluate, bind, insert_one, store_call in Hok. rewrite Hdb in Hok.
    cbv beta zeta in Hok. change (negb true) with false in Hok. cbv beta iota in Hok.
    rewrite Hfresh in Hok.
    destruct (db_answers env (n_ops w)) as [|[|] msg]; discriminate. }
  destruct (db_answers env (n_ops w)) as [|applied msg] eqn:Hans; cycle 1.
  { unfold evaluate, bind, insert_one, store_call in Hok. rewrite Hdb in Hok.
    cbv beta zeta in Hok. change (negb true) with false in Hok. cbv beta iota in Hok.
    rewrite Hfresh, Hans in Hok. destruct applied; discriminate. }
  destruct (fetch_texts env req (after_insert env req w)) as [[texts|e] w2] eqn:Hfetch.
  - destruct (evaluate_fetched py_repr env req w texts w2 Hdb Hans Hfresh Hfetch)
      as (html & Hhtml & Heq).
    cbv zeta in Heq. rewrite Heq in Hok |- *.
    destruct (db_answers env (S (n_ops w))) as [|applied msg].
    + cbn [fst snd store] in *. injection Hok as <-.
      exists texts, html. cbv zeta. fold oid.
      split; [reflexivity|]. split; [exact Hhtml|]. split; [reflexivity|].
      pose proof (fetch_texts_spec _ _ _ _ _ Hfetch) as (_ & _ & (evs & Hl & Hf) & _).
      unfold new_events. cbn [log]. rewrite Hl. unfold after_insert. cbn [log].
      rewrite <- !app_assoc. rewrite drop_app_length.
      cbn [app]. simpl List.filter. rewrite List.filter_app, Hf. reflexivity.
    + cbv zeta in Hok. cbn [fst] in Hok.
      destruct (db_answers env (S (S (n_ops w)))) as [|[|] msg2]; discriminate.
  - rewrite (evaluate_fetch_failed py_repr env req w e w2 Hdb Hans Hfresh Hfetch) in Hok.
    cbn [fst] in Hok.
    destruct (db_answers env (S (n_ops w))) as [|[|] msg]; discriminate.
Qed.

Lemma post_evaluate_store py_repr HttpUrl env body w :
  store_inv (store w) -> store_inv (store (post_evaluate py_repr HttpUrl env body w).2).
Proof.
  intros Hinv. unfold post_evaluate.
  destruct (validate_request HttpUrl body) as [req|]; [|exact Hinv].
  pose proof (evaluate_store py_repr env req w) as Hst. cbv zeta in Hst.
  destruct (evaluate py_repr env req w) as [r w']. cbn [snd] in *.
  destruct Hst as [->|(d & _ & -> & Hd)]; [exact Hinv|].
  apply store_inv_insert; assumption.
Qed.

Lemma reachable_store_inv py_repr HttpUrl w :
  reachable py_repr HttpUrl w -> store_inv (store w).
Proof.
  induction 1 as [w Hempty|env body w _ IH|env evaluation_id w _ IH|env evaluation_id w _ IH].
  - intros oid d Hl. rewrite Hempty, lookup_empty in Hl. discriminate.
  - apply post_evaluate_store. exact IH.
  - rewrite get_evaluation_store. exact IH.
  - unfold get_report_route.
    pose proof (get_evaluation_report_store py_repr env evaluation_id w) as Hst.
    destruct (get_evaluation_report py_repr env evaluation_id w) as [r w'].
    cbn [snd] in *. rewrite Hst. exact IH.
Qed.

(** C6. A successful [POST /evaluate] calls the store twice: the insert of the
    running record and one update that sets [html_report], [status] and
    [metrics] together.  In every collection that requests served one after
    the other can produce, a record has [metrics] and [html_report] both set or
    both unset, and [error] set only with [status = failed]. *)
Theorem completed_by_single_update :
  (forall (py_repr : value -> string) (env : Env) (req : EvaluationRequest) (w : World)
          (resp : dict),
     (evaluate py_repr env req w).1 = Ok resp ->
     let w' := (evaluate py_repr env req w).2 in
     let oid := new_oid env (n_ops w) in
     exists (metrics : dict) (html : string),
       let fields : dict :=
         <["html_report" := VStr html]>
         (<["status" := VStr "completed"]> (<["metrics" := VDict metrics]> ∅)) in
       List.filter is_store_event (new_events w w')
       = [EvInsert (running_doc req); EvUpdate oid fields] /\
       store w' = <[oid := dict_update (running_doc req) fields]> (store w) /\
       resp !! "status" = Some (VStr "completed")) /\
  (forall (py_repr : value -> string) (HttpUrl : string -> option string) (w : World),
     reachable py_repr HttpUrl w ->
     forall (oid : string) (d : dict),
       store w !! oid = Some d ->
       is_set d "metrics" = is_set d "html_report" /\
       (is_set d "error" = true -> d !! "status" = Some (VStr "failed"))).
Proof.
  split.
  - intros py_repr env req w resp Hok w' oid. subst w' oid.
    destruct (evaluate_ok_inv py_repr env req w resp Hok) as (texts & html & H).
    cbv zeta in H. destruct H as (-> & _ & Hst & Hlog).
    exists (dummy_deepeval texts.1 texts.2), html. cbv zeta.
    split; [exact Hlog|]. split; [exact Hst|]. reflexivity.
  - intros py_repr HttpUrl w Hreach oid d Hl.
    exact (reachable_store_inv py_repr HttpUrl w Hreach oid d Hl).
Qed.

Lemma completed_by_single_update_witness :
  exists (metrics : dict) (html : string),
    List.filter is_store_event
      (new_events w_empty (evaluate sample_repr env_up sample_request w_empty).2)
    = [EvInsert (running_doc sample_request);
       EvUpdate sample_oid
         (<["html_report" := VStr html]>
          (<["status" := VStr "completed"]> (<["metrics" := VDict metrics]> ∅)))] /\
    store (evaluate sample_repr env_up sample_request w_empty).2
    = <[sample_oid :=
          dict_update (running_doc sample_request)
            (<["html_report" := VStr html]>
             (<["status" := VStr "completed"]> (<["metrics" := VDict metrics]> ∅)))]> ∅.
Proof.
  destruct (proj1 completed_by_single_update sample_repr env_up sample_request w_empty
              (completed_reply sample_oid (dummy_deepeval "{}" None)) eq_refl)
    as (metrics & html & Hlog & Hst & _).
  exists metrics, html. split; [exact Hlog|exact Hst].
Defined.

Lemma truthy_nonempty_text (d : dict) (k html : string) :
  d !! k = Some (VStr html) -> html <> EmptyString -> truthy (dict_get d k) = true.
Proof.
  intros Hd Hne. unfold dict_get. rewrite Hd. simpl.
  destruct (String.eqb_spec html EmptyString) as [->|_]; [contradiction|reflexivity].
Qed.

(** ** Read paths *)

(** A stored page that is the empty text is not what the route answers with. *)
Lemma report_cached_not_verbatim py_repr :
  ~ cached_report_served_verbatim py_repr.
Proof.
  intros H.
  specialize (H env_up sample_oid sample_oid w_empty_report doc_empty_report EmptyString
                eq_refl eq_refl eq_refl eq_refl eq_refl).
  rewrite (get_evaluation_report_found py_repr env_up sample_oid sample_oid w_empty_report
             doc_empty_report eq_refl eq_refl eq_refl eq_refl) in H.
  change (truthy (dict_get doc_empty_report "html_report")) with false in H. cbv iota in H.
  apply render_html_report_ok_inv in H. destruct H as [_ H]. apply H. reflexivity.
Qed.

(** The claim of C7 as it stands fails, whatever the runtime prints: the record
    [doc_empty_report] holds an [html_report], and the route answers with a
    freshly rendered page instead. *)
Lemma empty_cached_report_not_served_verbatim :
  ~ exists py_repr, cached_report_served_verbatim py_repr.
Proof. intros [py_repr H]. exact (report_cached_not_verbatim py_repr H). Qed.

(** C7 (amended). For a stored record, [GET /evaluations/{id}/report] returns
    the stored [html_report] verbatim when it is present and not empty.  When
    it is missing, [None] or empty (falsy), the reply is what the reporter makes
    of the record's [status], [agent_card_url], [chat_url] and [metrics], with
    an empty dict in place of falsy metrics.  The collection is left as it
    was in every case. *)
Theorem report_cached_or_synthesized
    (py_repr : value -> string) (env : Env) (evaluation_id oid : string) (w : World)
    (d : dict) :
  db_configured env = true ->
  ObjectId evaluation_id = Ok oid ->
  db_answers env (n_ops w) = DbOk ->
  store w !! oid = Some d ->
  let r := (get_evaluation_report py_repr env evaluation_id w).1 in
  let w' := (get_evaluation_report py_repr env evaluation_id w).2 in
  (forall html, d !! "html_report" = Some (VStr html) -> html <> EmptyString -> r = Ok html) /\
  (truthy (dict_get d "html_report") = false ->
   r = render_html_report py_repr (report_view d) /\
   report_view d
   = <["status" := dict_get d "status"]>
     (<["agent_card_url" := dict_get d "agent_card_url"]>
     (<["chat_url" := dict_get d "chat_url"]>
     (<["metrics" := if truthy (dict_get d "metrics") then dict_get d "metrics" else VDict ∅]>
      ∅)))) /\
  store w' = store w.
Proof.
  intros Hdb Hid Hans Hd r w'. subst r w'.
  rewrite (get_evaluation_report_found py_repr env evaluation_id oid w d Hdb Hid Hans Hd).
  split; [|split].
  - intros html Hhtml Hne. rewrite (truthy_nonempty_text d _ html Hhtml Hne).
    unfold dict_get. rewrite Hhtml. reflexivity.
  - intros Hfalsy. rewrite Hfalsy. split; reflexivity.
  - apply get_evaluation_report_store.
Qed.

Lemma report_cached_or_synthesized_witness :
  (get_evaluation_report sample_repr env_up sample_oid w_cached_report).1
  = Ok "<html>cached</html>" /\
  store (get_evaluation_report sample_repr env_up sample_oid w_cached_report).2
  = store w_cached_report.
Proof.
  destruct (report_cached_or_synthesized sample_repr env_up sample_oid sample_oid
              w_cached_report doc_cached_report eq_refl eq_refl eq_refl eq_refl)
    as (Hcached & _ & Hstore).
  split; [|exact Hstore].
  apply Hcached; [reflexivity|discriminate].
Defined.

(** C10. For a stored record whose [html_report] is the empty text, the report
    route does not answer with that text: the check [if not html] takes it for
    missing, and the reply is what the reporter makes of the stored status,
    URLs and metrics, which is never the empty text. *)
Theorem empty_cached_report_resynthesized
    (py_repr : value -> string) (env : Env) (evaluation_id oid : string) (w : World)
    (d : dict) :
  db_configured env = true ->
  ObjectId evaluation_id = Ok oid ->
  db_answers env (n_ops w) = DbOk ->
  store w !! oid = Some d ->
  d !! "html_report" = Some (VStr EmptyString) ->
  let r := (get_evaluation_report py_repr env evaluation_id w).1 in
  r = render_html_report py_repr (report_view d) /\ r <> Ok EmptyString.
Proof.
  intros Hdb Hid Hans Hd Hempty r. subst r.
  rewrite (get_evaluation_report_found py_repr env evaluation_id oid w d Hdb Hid Hans Hd).
  assert (Hg : dict_get d "html_report" = VStr EmptyString)
    by (unfold dict_get; rewrite Hempty; reflexivity).
  rewrite Hg. change (truthy (VStr EmptyString)) with false. cbv iota.
  split; [reflexivity|].
  intros H. apply render_html_report_ok_inv in H. destruct H as [_ H]. apply H. reflexivity.
Qed.

Lemma empty_cached_report_resynthesized_witness :
  (get_evaluation_report sample_repr env_up sample_oid w_empty_report).1
  = render_html_report sample_repr (report_view doc_empty_report) /\
  (get_evaluation_report sample_repr env_up sample_oid w_empty_report).1 <> Ok EmptyString.
Proof.
  exact (empty_cached_report_resynthesized sample_repr env_up sample_oid sample_oid
           w_empty_report doc_empty_report eq_refl eq_refl eq_refl eq_refl eq_refl).
Defined.

(** C9 (the code at the failing input). On a record as [evaluate] first stores
    it, with [metrics] present and [None], the reporter raises an
    [AttributeError] at line 77 instead of returning a page: the default of
    [evaluation.get("metrics", {})] only covers a missing key. *)
Theorem render_raises_on_unset_metrics (py_repr : value -> string) (req : EvaluationRequest) :
  render_html_report py_repr (running_doc req)
  = Raise (Error "AttributeError" "'NoneType' object has no attribute 'get'").
Proof.
  destruct req as [a c]. unfold render_html_report.
  assert (Hm : running_doc (mkRequest a c) !! "metrics" = Some VNone) by (vm_compute; reflexivity).
  rewrite Hm. reflexivity.
Qed.

(** * Further properties *)

(** ** More on the fetcher *)

(** X1. With [max_retries <= 0] the loop body never runs: no request is sent
    and the 502 names [None] as the underlying error. *)
Theorem fetch_without_attempts
    (env : Env) (url : string) (max_retries : Z) (backoff : Q) (timeout : Z) (w : World) :
  max_retries <= 0 ->
  fetch_with_retries env url max_retries backoff timeout w
  = (Raise (HTTPException 502 ("Failed to fetch " +:+ url +:+ ": None")), w).
Proof.
  intros Hn. unfold fetch_with_retries, py_range.
  replace (Z.to_nat max_retries) with 0%nat by lia. reflexivity.
Qed.

Lemma fetch_without_attempts_witness :
  -1 <= 0 /\
  fetch_with_retries env_up "http://a" (-1) 0.8 10 w_empty
  = (Raise (HTTPException 502 "Failed to fetch http://a: None"), w_empty).
Proof.
  assert (H : -1 <= 0) by lia. split; [exact H|].
  exact (fetch_without_attempts env_up "http://a" (-1) 0.8 10 w_empty H).
Defined.

(** X2. With a negative backoff that the clock of [time.sleep] can hold and at
    least two attempts allowed, a failed first attempt ends the fetch:
    [time.sleep] raises [ValueError] inside the handler, after one request, and
    no 502 is produced. *)
Theorem fetch_negative_backoff_aborts
    (env : Env) (url : string) (max_retries : Z) (backoff : Q) (timeout : Z) (w : World)
    (msg : string) :
  2 <= max_retries ->
  (- clock_max <= backoff)%Q ->
  (backoff < 0)%Q ->
  net env (n_gets w) url = Failed msg ->
  fetch_with_retries env url max_retries backoff timeout w
  = (Raise (Error "ValueError" "sleep length must be non-negative"),
     mkWorld (store w) (S (n_gets w)) (n_ops w) (log w ++ [EvGet url timeout])).
Proof.
  intros Hn Hlo Hb Hnet. unfold fetch_with_retries, py_range.
  destruct (Z.to_nat max_retries) as [|m] eqn:Hm; [lia|].
  simpl. unfold bind at 1, requests_get. rewrite Hnet.
  change (Z.of_nat 0) with 0.
  destruct (Z.ltb_spec 0 (max_retries - 1)) as [_|Hge]; [|lia].
  change (2 ^ 0) with 1.
  unfold bind, lift, float_mul_int, time_sleep.
  change (Z.abs 1 <? float_int_bound) with true. cbv beta iota.
  assert (Heq : (backoff * inject_Z 1 == backoff)%Q) by (change (inject_Z 1) with 1%Q; lra).
  assert (Hr : Qle_bool (Qabs (backoff * inject_Z 1)) clock_max = true).
  { apply Qle_bool_iff. rewrite Heq. rewrite Qabs_neg by lra. lra. }
  assert (Hs : Qle_bool 0 (backoff * inject_Z 1) = false).
  { destruct (Qle_bool 0 (backoff * inject_Z 1)) eqn:E; [|reflexivity].
    apply Qle_bool_iff in E. lra. }
  rewrite Hr, Hs. reflexivity.
Qed.

Lemma fetch_negative_backoff_aborts_witness :
  2 <= 3 /\ (- clock_max <= -1 # 2)%Q /\ (-1 # 2 < 0)%Q /\
  fetch_with_retries env_down "http://a" 3 (-1 # 2)%Q 10 w_empty
  = (Raise (Error "ValueError" "sleep length must be non-negative"),
     mkWorld ∅ 1 0 [EvGet "http://a" 10]).
Proof.
  assert (H2 : 2 <= 3) by lia.
  assert (Hlo : (- clock_max <= -1 # 2)%Q) by (vm_compute; discriminate).
  assert (Hb : (-1 # 2 < 0)%Q) by reflexivity.
  split; [exact H2|]. split; [exact Hlo|]. split; [exact Hb|].
  exact (fetch_negative_backoff_aborts env_down "http://a" 3 (-1 # 2)%Q 10 w_empty
           "timed out" H2 Hlo Hb eq_refl).
Defined.

Lemma total_sleep_app (xs ys : list event) :
  (total_sleep (xs ++ ys) == total_sleep xs + total_sleep ys)%Q.
Proof.
  induction xs as [|x xs IH]; simpl.
  - lra.
  - destruct x; simpl; rewrite ?IH; lra.
Qed.

Lemma backoff_trace_S url backoff timeout (k : nat) :
  backoff_trace url backoff timeout (S k)
  = backoff_trace url backoff timeout k
    ++ [EvGet url timeout; EvSleep (backoff * inject_Z (2 ^ Z.of_nat k))].
Proof.
  unfold backoff_trace. rewrite seq_S, flat_map_app. simpl. reflexivity.
Qed.

Lemma backoff_trace_total_sleep url backoff timeout (k : nat) :
  (total_sleep (backoff_trace url backoff timeout k)
   == backoff * (inject_Z (2 ^ Z.of_nat k) - 1))%Q.
Proof.
  induction k as [|k IH].
  - change (total_sleep (backoff_trace url backoff timeout 0)) with 0%Q.
    change (inject_Z (2 ^ Z.of_nat 0)) with 1%Q. lra.
  - rewrite backoff_trace_S, total_sleep_app, IH.
    change (total_sleep [EvGet url timeout; EvSleep (backoff * inject_Z (2 ^ Z.of_nat k))])
      with (backoff * inject_Z (2 ^ Z.of_nat k) + 0)%Q.
    replace (Z.of_nat (S k)) with (Z.of_nat k + 1) by lia.
    rewrite Z.pow_add_r by lia. change (2 ^ 1) with 2.
    rewrite inject_Z_mult. change (inject_Z 2) with 2%Q. lra.
Qed.

(** X3. A fetch that sent [g >= 1] requests has slept [backoff * (2^(g-1) - 1)]
    seconds in all, whether it ended with a response or with the 502: the
    waits double, and none follows the last request. *)
Theorem fetch_total_backoff
    (env : Env) (url : string) (max_retries : Z) (backoff : Q) (timeout : Z) (w : World) :
  (0 <= backoff)%Q ->
  let w' := (fetch_with_retries env url max_retries backoff timeout w).2 in
  let g := length (List.filter is_get (new_events w w')) in
  (1 <= g)%nat ->
  (total_sleep (new_events w w') == backoff * (inject_Z (2 ^ Z.of_nat (g - 1)) - 1))%Q.
Proof.
  intros Hb w' g. subst w' g.
  destruct (fetch_with_retries env url max_retries backoff timeout w) as [r w'] eqn:Hrun.
  cbn [snd]. apply fetch_with_retries_run in Hrun.
  destruct Hrun as (_ & _ & k & _ & [(text & _ & _ & _ & _ & Hl)
                                    |[(_ & _ & _ & Hl)|(_ & _ & _ & _ & Hl)]]);
    apply new_events_app in Hl; rewrite Hl.
  - intros _. rewrite List.filter_app, length_app, backoff_trace_gets. simpl.
    replace (k + 1 - 1)%nat with k by lia.
    rewrite total_sleep_app, backoff_trace_total_sleep. simpl. lra.
  - rewrite exhausted_trace_gets. intros Hk. destruct k as [|m]; [lia|].
    unfold exhausted_trace. replace (S m - 1)%nat with m by lia.
    rewrite total_sleep_app, backoff_trace_total_sleep. simpl. lra.
  - intros _. rewrite List.filter_app, length_app, backoff_trace_gets. simpl.
    replace (k + 1 - 1)%nat with k by lia.
    rewrite total_sleep_app, backoff_trace_total_sleep. simpl. lra.
Qed.

Lemma fetch_total_backoff_witness :
  (0 <= 0.8)%Q /\
  (total_sleep (new_events w_empty (fetch_default env_down "http://a" w_empty).2) == 2.4)%Q.
Proof.
  split; [exact default_backoff_nonneg|].
  pose proof (fetch_total_backoff env_down "http://a" 3 0.8 10 w_empty
                default_backoff_nonneg) as H.
  cbv zeta in H. rewrite (H ltac:(vm_compute; lia)). reflexivity.
Defined.

Lemma fetch_loop_frame env url N backoff timeout (attempts : list Z) :
  forall (last : option string) (w : World) r w',
    fetch_loop env url N backoff timeout attempts last w = (r, w') ->
    store w' = store w /\ n_ops w' = n_ops w /\
    (n_gets w <= n_gets w' <= n_gets w + length attempts)%nat /\
    exists evs, log w' = log w ++ evs /\ List.filter is_store_event evs = [] /\
                forall u, u ∈ requested_urls evs -> u = url.
Proof.
  induction attempts as [|a rest IH]; intros last w r w' Hrun.
  - simpl in Hrun. unfold raise in Hrun. injection Hrun as <- <-.
    split; [reflexivity|]. split; [reflexivity|]. split; [simpl; lia|].
    exists []. rewrite app_nil_r.
    split; [reflexivity|]. split; [reflexivity|]. intros u Hu.
    apply elem_of_nil in Hu. contradiction.
  - simpl in Hrun. unfold bind at 1, requests_get in Hrun.
    destruct (net env (n_gets w) url) as [text|e].
    + unfold ret in Hrun. injection Hrun as <- <-. simpl.
      split; [reflexivity|]. split; [reflexivity|]. split; [lia|].
      exists [EvGet url timeout]. split; [reflexivity|]. split; [reflexivity|].
      intros u Hu. apply list_elem_of_singleton in Hu. exact Hu.
    + unfold bind at 1 in Hrun.
      destruct (a <? N - 1).
      * destruct (sleep_accepted backoff a) eqn:Hacc.
        -- rewrite (backoff_sleep_ok _ _ _ Hacc) in Hrun.
           apply IH in Hrun. cbn [n_gets n_ops store log] in Hrun.
           destruct Hrun as (Hs & Ho & Hg & evs & Hl & Hf & Hu).
           split; [exact Hs|]. split; [exact Ho|]. split; [simpl; lia|].
           exists (EvGet url timeout :: EvSleep (backoff * inject_Z (2 ^ a)) :: evs).
           rewrite Hl, <- !app_assoc. split; [reflexivity|]. split; [exact Hf|].
           intros u Hin. simpl in Hin. apply elem_of_cons in Hin as [->|Hin]; auto.
        -- destruct (backoff_sleep_raises backoff a
                       (mkWorld (store w) (S (n_gets w)) (n_ops w) (log w ++ [EvGet url timeout]))
                       Hacc) as (cls & msg & Hsleep).
           rewrite Hsleep in Hrun. injection Hrun as <- <-. simpl.
           split; [reflexivity|]. split; [reflexivity|]. split; [lia|].
           exists [EvGet url timeout]. split; [reflexivity|]. split; [reflexivity|].
           intros u Hu. apply list_elem_of_singleton in Hu. exact Hu.
      * unfold ret in Hrun. apply IH in Hrun. cbn [n_gets n_ops store log] in Hrun.
        destruct Hrun as (Hs & Ho & Hg & evs & Hl & Hf & Hu).
        split; [exact Hs|]. split; [exact Ho|]. split; [simpl; lia|].
        exists (EvGet url timeout :: evs).
        rewrite Hl, <- !app_assoc. split; [reflexivity|]. split; [exact Hf|].
        intros u Hin. simpl in Hin. apply elem_of_cons in Hin as [->|Hin]; auto.
Qed.

(** X4. Whatever its arguments and however it ends, a fetch leaves the
    collection and the count of store calls alone, logs no store call, sends
    at most [max(0, max_retries)] requests, and sends them all to [url]. *)
Theorem fetch_touches_only_the_network
    (env : Env) (url : string) (max_retries : Z) (backoff : Q) (timeout : Z) (w : World) :
  let w' := (fetch_with_retries env url max_retries backoff timeout w).2 in
  store w' = store w /\ n_ops w' = n_ops w /\
  List.filter is_store_event (new_events w w') = [] /\
  (n_gets w <= n_gets w' <= n_gets w + Z.to_nat max_retries)%nat /\
  forall u, u ∈ requested_urls (new_events w w') -> u = url.
Proof.
  cbv zeta.
  destruct (fetch_with_retries env url max_retries backoff timeout w) as [r w'] eqn:Hrun.
  cbn [snd]. unfold fetch_with_retries in Hrun. apply fetch_loop_frame in Hrun.
  destruct Hrun as (Hs & Ho & Hg & evs & Hl & Hf & Hu).
  rewrite (new_events_app _ _ _ Hl).
  unfold py_range in Hg. rewrite length_fmap, length_seq in Hg.
  repeat split; auto; lia.
Qed.

(** ** More on the scorer *)

Lemma chat_factor_from_option (chat_logs : option string) :
  match py_len <$> chat_logs with Some n => n mod 1000 | None => 0 end
  = from_option py_len 0 chat_logs mod 1000.
Proof. destruct chat_logs; reflexivity. Qed.

(** X5. The scores depend on the texts only through [max(1, len(agent_card))]
    and [len(chat_logs) mod 1000] (0 without chat logs): an empty agent card
    scores like a one-character one, and absent, empty and 1000-character
    chat logs score alike. *)
Theorem scorer_depends_on_lengths
    (agent_card agent_card' : string) (chat_logs chat_logs' : option string) :
  Z.max 1 (py_len agent_card) = Z.max 1 (py_len agent_card') ->
  from_option py_len 0 chat_logs mod 1000 = from_option py_len 0 chat_logs' mod 1000 ->
  dummy_deepeval agent_card chat_logs = dummy_deepeval agent_card' chat_logs'.
Proof.
  intros Ha Hc. rewrite !dummy_deepeval_spec. unfold spec_score.
  rewrite !chat_factor_from_option, Ha, Hc. reflexivity.
Qed.

Lemma scorer_depends_on_lengths_witness :
  Z.max 1 (py_len EmptyString) = Z.max 1 (py_len "x") /\
  from_option py_len 0 None mod 1000
  = from_option py_len 0 (Some (string_of_list_ascii (repeat "y"%char 1000))) mod 1000 /\
  dummy_deepeval EmptyString None
  = dummy_deepeval "x" (Some (string_of_list_ascii (repeat "y"%char 1000))).
Proof.
  assert (Ha : Z.max 1 (py_len EmptyString) = Z.max 1 (py_len "x")) by reflexivity.
  assert (Hc : from_option py_len 0 None mod 1000
               = from_option py_len 0 (Some (string_of_list_ascii (repeat "y"%char 1000)))
                 mod 1000) by reflexivity.
  split; [exact Ha|]. split; [exact Hc|].
  exact (scorer_depends_on_lengths EmptyString "x" None
           (Some (string_of_list_ascii (repeat "y"%char 1000))) Ha Hc).
Defined.

Lemma round_half_even_inject (z : Z) : round_half_even (inject_Z z) = z.
Proof.
  unfold round_half_even. rewrite Qfloor_Z.
  destruct (Qcompare_spec (inject_Z z - inject_Z z) (1 # 2)) as [H|H|H]; [lra|reflexivity|lra].
Qed.

Lemma spec_norm_hundredth (r : Z) : 0 <= r <= 100 -> spec_norm (Qmake r 100) = Qmake r 100.
Proof.
  intros Hr. unfold spec_norm, py_round.
  change (Z.to_pos (10 ^ 2)) with 100%positive. f_equal.
  rewrite <- (round_half_even_inject r) at 2. apply round_half_even_comp.
  assert (H0 : (0 <= Qmake r 100)%Q) by (unfold Qle; simpl; lia).
  assert (H1 : (Qmake r 100 <= 1)%Q) by (unfold Qle; simpl; lia).
  assert (Hc : (spec_clamp (Qmake r 100) 0 1 == Qmake r 100)%Q).
  { unfold spec_clamp.
    destruct (Qle_bool (Qmake r 100) 0) eqn:E1; [apply Qle_bool_iff in E1; lra|].
    destruct (Qle_bool 1 (Qmake r 100)) eqn:E2; [apply Qle_bool_iff in E2; lra|].
    reflexivity. }
  rewrite Hc. unfold Qeq. simpl. lia.
Qed.

(** X6. Clamping and rounding never change a score: each of the eight
    normalised scores is exactly [k mod 100] hundredths for its integer [k],
    so none exceeds 0.99. *)
Theorem scores_are_exact_hundredths (agent_card : string) (chat_logs : option string) :
  let base := Z.max 1 (py_len agent_card) in
  let chat_factor := from_option py_len 0 chat_logs mod 1000 in
  let h (k : Z) : Q := Qmake (k mod 100) 100 in
  dummy_deepeval agent_card chat_logs
  = metrics_dict
      (mkMetrics
         (mkMcp (h base) (h (base / 3)) [])
         (mkSafety (h (base + chat_factor)) (h (base / 7 + chat_factor / 5)) (h (base / 11)))
         (mkChatbot (h (base / 13 + chat_factor / 3)) (h (base / 5)) (h (base / 9))
                    (100 + base mod 50))) /\
  forall (p : list string) (q : Q),
    (p, VFloat q) ∈ numeric_leaves [] (VDict (dummy_deepeval agent_card chat_logs)) ->
    (q <= 0.99)%Q.
Proof.
  intros base chat_factor h.
  assert (Hh : forall k, spec_norm (Qmake (k mod 100) 100) = h k).
  { intros k. apply spec_norm_hundredth. pose proof (Z.mod_pos_bound k 100). lia. }
  assert (Heq : dummy_deepeval agent_card chat_logs
                = metrics_dict
                    (mkMetrics
                       (mkMcp (h base) (h (base / 3)) [])
                       (mkSafety (h (base + chat_factor)) (h (base / 7 + chat_factor / 5))
                                 (h (base / 11)))
                       (mkChatbot (h (base / 13 + chat_factor / 3)) (h (base / 5))
                                  (h (base / 9)) (100 + base mod 50)))).
  { rewrite dummy_deepeval_spec. unfold spec_score.
    rewrite chat_factor_from_option. fold base chat_factor. cbv zeta.
    rewrite !Hh. reflexivity. }
  split; [exact Heq|].
  intros p q Hin. rewrite Heq, metrics_dict_leaves in Hin by reflexivity.
  cbn [mcpCompliance safety chatbot specAlignment toolsSchemaValid toxicity compliance
       harmfulness relevance helpfulness factuality latency] in Hin.
  assert (Hle : forall k, (h k <= 0.99)%Q).
  { intros k. unfold h, Qle. simpl. pose proof (Z.mod_pos_bound k 100). lia. }
  repeat (apply elem_of_cons in Hin as [Hin|Hin]); try (apply elem_of_nil in Hin; contradiction).
  all: try (injection Hin as _ ->; apply Hle).
  discriminate Hin.
Qed.

(** ** More on the reporter *)





Lemma render_html_report_ext py_repr (e1 e2 : dict) :
  dict_get e1 "status" = dict_get e2 "status" ->
  dict_get e1 "agent_card_url" = dict_get e2 "agent_card_url" ->
  py_or (dict_get e1 "chat_url") (VStr "—") = py_or (dict_get e2 "chat_url") (VStr "—") ->
  default (VDict ∅) (e1 !! "metrics") = default (VDict ∅) (e2 !! "metrics") ->
  render_html_report py_repr e1 = render_html_report py_repr e2.
Proof.
  intros Hs Ha Hc Hm. unfold render_html_report. rewrite Hs, Ha, Hc, Hm. reflexivity.
Qed.

(** X8. The page shows nothing of a record but its [status], its
    [agent_card_url], its [chat_url] (a missing, [None] or empty one all as the
    dash) and its [metrics] (a missing key as the empty dict): records that
    agree on these render alike, whatever else they hold. *)
Theorem render_reads_four_fields (py_repr : value -> string) (e1 e2 : dict) :
  dict_get e1 "status" = dict_get e2 "status" ->
  dict_get e1 "agent_card_url" = dict_get e2 "agent_card_url" ->
  py_or (dict_get e1 "chat_url") (VStr "—") = py_or (dict_get e2 "chat_url") (VStr "—") ->
  default (VDict ∅) (e1 !! "metrics") = default (VDict ∅) (e2 !! "metrics") ->
  render_html_report py_repr e1 = render_html_report py_repr e2.
Proof.
  intros Hs Ha Hc Hm. apply render_html_report_ext; assumption.
Qed.

Lemma render_reads_four_fields_witness :
  render_html_report sample_repr
    (<["status" := VStr "failed"]> (<["agent_card_url" := VStr "http://a"]>
     (<["metrics" := VDict ∅]> ∅)))
  = render_html_report sample_repr
      (<["status" := VStr "failed"]> (<["agent_card_url" := VStr "http://a"]>
       (<["chat_url" := VStr EmptyString]> (<["error" := VStr "boom"]>
        (<["_id" := VOid sample_oid]> ∅))))).
Proof. apply render_reads_four_fields; reflexivity. Defined.

(** ** More on the evaluation service *)

Lemma fetch_default_gets env url w r w' :
  fetch_default env url w = (r, w') -> (n_gets w <= n_gets w' <= n_gets w + 3)%nat.
Proof.
  intros Hrun. unfold fetch_default, fetch_with_retries in Hrun.
  apply fetch_loop_frame in Hrun. destruct Hrun as (_ & _ & Hg & _).
  simpl in Hg. lia.
Qed.

Lemma fetch_texts_gets env req w r w' :
  fetch_texts env req w = (r, w') ->
  (n_gets w <= n_gets w' <= n_gets w + match chat_url req with Some _ => 6 | None => 3 end)%nat.
Proof.
  unfold fetch_texts, bind, ret. intros Hrun.
  destruct (fetch_default env (agent_card_url req) w) as [[a|e1] w1] eqn:H1;
    apply fetch_default_gets in H1.
  - destruct (chat_url req) as [u|].
    + destruct (fetch_default env u w1) as [[c|e2] w2] eqn:H2;
        apply fetch_default_gets in H2; injection Hrun as <- <-; lia.
    + injection Hrun as <- <-. lia.
  - injection Hrun as <- <-. destruct (chat_url req); lia.
Qed.

(** Every way an evaluation can go, in one statement: how many requests and
    store calls it makes, which exceptions it ends with, and what it leaves in
    the collection. *)
Lemma evaluate_summary py_repr env req w :
  let out := evaluate py_repr env req w in
  let oid := new_oid env (n_ops w) in
  (n_gets w <= n_gets out.2 <= n_gets w + match chat_url req with Some _ => 6 | None => 3 end)%nat /\
  (n_ops w <= n_ops out.2 <= n_ops w + 3)%nat /\
  match out.1 with
  | Ok _ => True
  | Raise (HTTPException s _) => s = 500 \/ s = 502
  | Raise (Error _ _) => True
  end /\
  (store out.2 = store w \/
   exists d, store w !! oid = None /\ store out.2 = <[oid := d]> (store w) /\
             service_record py_repr req oid d).
Proof.
  cbv zeta.
  assert (Hc : (3 <= match chat_url req with Some _ => 6 | None => 3 end)%nat) by (destruct (chat_url req); lia).
  destruct (db_configured env) eqn:Hdb; cycle 1.
  { unfold evaluate. rewrite Hdb. simpl. repeat split; try lia; auto. }
  destruct (store w !! new_oid env (n_ops w)) as [d0|] eqn:Hfresh.
  { unfold evaluate, bind, insert_one, store_call. rewrite Hdb. cbv beta zeta.
    change (negb true) with false. cbv beta iota. rewrite Hfresh.
    destruct (db_answers env (n_ops w)) as [|[|] msg]; simpl; repeat split; try lia; auto. }
  destruct (db_answers env (n_ops w)) as [|applied msg] eqn:Hans; cycle 1.
  { unfold evaluate, bind, insert_one, store_call. rewrite Hdb. cbv beta zeta.
    change (negb true) with false. cbv beta iota. rewrite Hfresh, Hans.
    destruct applied; simpl; repeat split; try lia; auto.
    right. eexists. split; [reflexivity|]. split; [reflexivity|]. apply sr_running. }
  destruct (fetch_texts env req (after_insert env req w)) as [[texts|e] w2] eqn:Hfetch;
    pose proof (fetch_texts_gets _ _ _ _ _ Hfetch) as Hg;
    pose proof (fetch_texts_spec _ _ _ _ _ Hfetch) as (_ & _ & _ & He);
    unfold after_insert in Hg; cbn [n_gets] in Hg.
  - destruct (evaluate_fetched py_repr env req w texts w2 Hdb Hans Hfresh Hfetch)
      as (html & Hhtml & ->).
    destruct (db_answers env (S (n_ops w))) as [|applied msg].
    + cbn [fst snd store n_gets n_ops]. repeat split; try lia.
      right. eexists. split; [reflexivity|]. split; [reflexivity|].
      apply sr_completed. exact Hhtml.
    + cbv zeta. cbn [fst snd store n_gets n_ops].
      split; [lia|]. split; [lia|]. split.
      * destruct (db_answers env (S (S (n_ops w)))) as [|? ?]; simpl; auto.
      * right.
        destruct (db_answers env (S (S (n_ops w)))) as [|[|] msg2]; cbn [answered_store];
          destruct applied; eexists; (split; [reflexivity|]); (split; [reflexivity|]);
          eauto using sr_running, sr_completed, sr_failed_with, sr_completed_failed.
  - rewrite (evaluate_fetch_failed py_repr env req w e w2 Hdb Hans Hfresh Hfetch).
    cbn [fst snd store n_gets n_ops]. destruct (He e eq_refl) as [d ->].
    split; [lia|]. split; [lia|]. split.
    + destruct (db_answers env (S (n_ops w))) as [|? ?]; simpl; auto.
    + right.
      destruct (db_answers env (S (n_ops w))) as [|[|] msg]; cbn [answered_store];
        eexists; (split; [reflexivity|]); (split; [reflexivity|]);
        auto using sr_running, sr_failed.
Qed.

(** X9. Without a configured store, [POST /evaluate] and both read handlers
    raise the 500 [Database not configured] at once: no request is sent, no
    store call is made, nothing is logged. *)
Theorem unconfigured_store_is_500
    (py_repr : value -> string) (env : Env) (req : EvaluationRequest)
    (evaluation_id : string) (w : World) :
  db_configured env = false ->
  evaluate py_repr env req w
  = (Raise (HTTPException 500 "Database not configured"), w) /\
  get_evaluation py_repr env evaluation_id w
  = (Raise (HTTPException 500 "Database not configured"), w) /\
  get_evaluation_report py_repr env evaluation_id w
  = (Raise (HTTPException 500 "Database not configured"), w).
Proof.
  intros Hdb. unfold evaluate, get_evaluation, get_evaluation_report, load_evaluation, bind.
  rewrite Hdb. repeat split.
Qed.

Lemma unconfigured_store_is_500_witness :
  evaluate sample_repr (mkEnv false (fun _ _ => Delivered "{}") (fun _ => DbOk)
                          (fun _ => sample_oid)) sample_request w_empty
  = (Raise (HTTPException 500 "Database not configured"), w_empty).
Proof.
  exact (proj1 (unconfigured_store_is_500 sample_repr
                  (mkEnv false (fun _ _ => Delivered "{}") (fun _ => DbOk)
                     (fun _ => sample_oid))
                  sample_request sample_oid w_empty eq_refl)).
Defined.

Lemma length_list_ascii_of_string (s : string) :
  length (list_ascii_of_string s) = String.length s.
Proof. induction s as [|c s IH]; simpl; [reflexivity|]. rewrite IH. reflexivity. Qed.

(** What [fromhex] accepts is made of hexadecimal digits and whitespace. *)
Lemma fromhex_chars (n : nat) :
  forall (cs digits : list ascii),
    (length cs <= n)%nat -> fromhex cs = Some digits ->
    forall c, In c cs -> is_hex_digit c = true \/ is_space c = true.
Proof.
  induction n as [|n IH]; intros cs digits Hlen Hfrom c Hin.
  - destruct cs; [destruct Hin|simpl in Hlen; lia].
  - destruct cs as [|c1 rest]; [destruct Hin|].
    simpl in Hlen. simpl in Hfrom.
    destruct (is_space c1) eqn:Hsp.
    + destruct Hin as [<-|Hin]; [right; exact Hsp|].
      apply (IH rest digits); [lia|exact Hfrom|exact Hin].
    + destruct (is_hex_digit c1) eqn:Hhex; [|discriminate].
      destruct rest as [|c2 rest']; [discriminate|].
      destruct (is_hex_digit c2) eqn:Hhex2; [|discriminate].
      destruct (fromhex rest') as [ds|] eqn:Hrest; [|discriminate].
      destruct Hin as [<-|[<-|Hin]]; [left; exact Hhex|left; exact Hhex2|].
      simpl in Hlen. apply (IH rest' ds); [lia|exact Hrest|exact Hin].
Qed.

Lemma ObjectId_rejects (s : string) :
  String.length s <> 24%nat \/
  (exists c, In c (list_ascii_of_string s) /\ is_hex_digit c = false /\ is_space c = false) ->
  ObjectId s = Raise (Error "InvalidId" s).
Proof.
  intros H. unfold ObjectId. cbv zeta. rewrite length_list_ascii_of_string.
  destruct H as [Hlen|(c & Hin & Hc & Hsp)].
  - apply Nat.eqb_neq in Hlen. rewrite Hlen. reflexivity.
  - destruct (fromhex (list_ascii_of_string s)) as [digits|] eqn:Hfrom.
    + destruct (fromhex_chars _ _ _ (le_n _) Hfrom c Hin) as [H|H]; congruence.
    + destruct (String.length s =? 24)%nat; reflexivity.
Qed.

(** X10. An id that is not 24 characters long, or that holds a character
    which is neither a hexadecimal digit nor ASCII whitespace, is answered
    with the 400 [Invalid evaluation id] by both read handlers, before any
    store call. *)
Theorem malformed_id_is_400
    (py_repr : value -> string) (env : Env) (evaluation_id : string) (w : World) :
  db_configured env = true ->
  String.length evaluation_id <> 24%nat \/
  (exists c, In c (list_ascii_of_string evaluation_id)
             /\ is_hex_digit c = false /\ is_space c = false) ->
  get_evaluation py_repr env evaluation_id w
  = (Raise (HTTPException 400 "Invalid evaluation id"), w) /\
  get_evaluation_report py_repr env evaluation_id w
  = (Raise (HTTPException 400 "Invalid evaluation id"), w).
Proof.
  intros Hdb Hbad. apply ObjectId_rejects in Hbad.
  unfold get_evaluation, get_evaluation_report, load_evaluation, bind.
  rewrite Hdb, Hbad. split; reflexivity.
Qed.

Lemma malformed_id_is_400_witness :
  (exists c, In c (list_ascii_of_string "65f1c0ffee0123456789abcg")
             /\ is_hex_digit c = false /\ is_space c = false) /\
  get_evaluation sample_repr env_up "65f1c0ffee0123456789abcg" w_cached_report
  = (Raise (HTTPException 400 "Invalid evaluation id"), w_cached_report).
Proof.
  assert (H : exists c, In c (list_ascii_of_string "65f1c0ffee0123456789abcg")
                        /\ is_hex_digit c = false /\ is_space c = false).
  { exists "g"%char. split; [simpl; auto 30|]. split; reflexivity. }
  split; [exact H|].
  exact (proj1 (malformed_id_is_400 sample_repr env_up "65f1c0ffee0123456789abcg"
                  w_cached_report eq_refl (or_intror H))).
Defined.

(** Whitespace between the pairs of digits is skipped, not refused: such an id
    of 24 characters parses to a shorter one, and the handlers go on to look
    it up. *)
Example ObjectId_skips_whitespace :
  ObjectId "65f1c0ffee0123456789ab  " = Ok "65f1c0ffee0123456789ab" /\
  get_evaluation sample_repr env_up "65f1c0ffee0123456789ab  " w_empty
  = (Raise (HTTPException 404 "Evaluation not found"),
     mkWorld ∅ 0 1 [EvFind "65f1c0ffee0123456789ab"]).
Proof. split; reflexivity. Qed.

(** Whitespace inside a pair is refused, and so is an odd digit at the end. *)
Example ObjectId_refuses_split_pair :
  ObjectId "65f1c0ffee0123456789a b " = Raise (Error "InvalidId" "65f1c0ffee0123456789a b ").
Proof. reflexivity. Qed.

(** X11. A well-formed id with no record behind it is answered with the 404
    [Evaluation not found] by both read handlers, after one lookup that leaves
    the collection as it was. *)
Theorem unknown_id_is_404
    (py_repr : value -> string) (env : Env) (evaluation_id oid : string) (w : World) :
  db_configured env = true ->
  ObjectId evaluation_id = Ok oid ->
  db_answers env (n_ops w) = DbOk ->
  store w !! oid = None ->
  let w' := mkWorld (store w) (n_gets w) (S (n_ops w)) (log w ++ [EvFind oid]) in
  get_evaluation py_repr env evaluation_id w
  = (Raise (HTTPException 404 "Evaluation not found"), w') /\
  get_evaluation_report py_repr env evaluation_id w
  = (Raise (HTTPException 404 "Evaluation not found"), w').
Proof.
  intros Hdb Hid Hans Hnone. cbv zeta.
  assert (Hload : load_evaluation env evaluation_id w
                  = (Raise (HTTPException 404 "Evaluation not found"),
                     mkWorld (store w) (n_gets w) (S (n_ops w)) (log w ++ [EvFind oid]))).
  { unfold load_evaluation. rewrite Hdb, Hid. change (negb true) with false. cbv beta iota.
    unfold bind, find_one, store_call. cbv beta iota zeta. rewrite Hans, Hnone. reflexivity. }
  unfold get_evaluation, get_evaluation_report, bind. rewrite Hload. split; reflexivity.
Qed.

Lemma unknown_id_is_404_witness :
  (get_evaluation sample_repr env_up sample_oid w_empty).1
  = Raise (HTTPException 404 "Evaluation not found").
Proof.
  exact (f_equal fst (proj1 (unknown_id_is_404 sample_repr env_up sample_oid sample_oid
                               w_empty eq_refl eq_refl eq_refl eq_refl))).
Defined.

Lemma get_evaluation_found py_repr env evaluation_id oid (w : World) (d : dict) :
  db_configured env = true ->
  ObjectId evaluation_id = Ok oid ->
  db_answers env (n_ops w) = DbOk ->
  store w !! oid = Some d ->
  exists doc,
    (get_evaluation py_repr env evaluation_id w).1 = Ok doc /\
    doc !! "id" = Some (VStr oid) /\
    doc !! "_id" = None /\
    (forall k, k <> "id" -> k <> "_id" -> doc !! k = d !! k) /\
    store (get_evaluation py_repr env evaluation_id w).2 = store w.
Proof.
  intros Hdb Hid Hans Hd.
  exists (<["id" := VStr oid]> (delete "_id" (<["_id" := VOid oid]> d))).
  split; [|split; [|split; [|split]]].
  - unfold get_evaluation, bind.
    rewrite (load_evaluation_found _ _ _ _ _ Hdb Hid Hans Hd).
    unfold ret, dict_get. rewrite lookup_insert_eq. reflexivity.
  - apply lookup_insert_eq.
  - rewrite lookup_insert_ne by discriminate. apply lookup_delete_eq.
  - intros k Hk1 Hk2. rewrite lookup_insert_ne by congruence.
    rewrite lookup_delete_ne by congruence. rewrite lookup_insert_ne by congruence.
    reflexivity.
  - apply get_evaluation_store.
Qed.

(** X12. For a stored record, [GET /evaluations/{id}] returns its fields as
    stored, with the key [id] holding the id as text and without the key
    [_id]; the collection is left as it was. *)
Theorem get_evaluation_returns_record
    (py_repr : value -> string) (env : Env) (evaluation_id oid : string) (w : World)
    (d : dict) :
  db_configured env = true ->
  ObjectId evaluation_id = Ok oid ->
  db_answers env (n_ops w) = DbOk ->
  store w !! oid = Some d ->
  exists doc,
    (get_evaluation py_repr env evaluation_id w).1 = Ok doc /\
    doc !! "id" = Some (VStr oid) /\
    doc !! "_id" = None /\
    (forall k, k <> "id" -> k <> "_id" -> doc !! k = d !! k) /\
    store (get_evaluation py_repr env evaluation_id w).2 = store w.
Proof.
  intros Hdb Hid Hans Hd.
  exact (get_evaluation_found py_repr env evaluation_id oid w d Hdb Hid Hans Hd).
Qed.

Lemma get_evaluation_returns_record_witness :
  exists doc,
    (get_evaluation sample_repr env_up sample_oid w_cached_report).1 = Ok doc /\
    doc !! "id" = Some (VStr sample_oid) /\
    doc !! "_id" = None /\
    doc !! "html_report" = Some (VStr "<html>cached</html>").
Proof.
  destruct (get_evaluation_returns_record sample_repr env_up sample_oid sample_oid
              w_cached_report doc_cached_report eq_refl eq_refl eq_refl eq_refl)
    as (doc & H1 & H2 & H3 & H4 & _).
  exists doc. split; [exact H1|]. split; [exact H2|]. split; [exact H3|].
  rewrite H4 by discriminate. reflexivity.
Defined.

(** X13. What a successful [POST /evaluate] replies is what a later
    [GET /evaluations/{id}] on the replied id returns: the same id, status
    [completed] and metrics, with the rendered page stored and no error,
    provided the generated id reads back as itself and the lookup goes
    through. *)
Theorem evaluate_then_get_evaluation
    (py_repr : value -> string) (env env' : Env) (req : EvaluationRequest) (w : World)
    (resp : dict) :
  (evaluate py_repr env req w).1 = Ok resp ->
  let w' := (evaluate py_repr env req w).2 in
  let oid := new_oid env (n_ops w) in
  ObjectId oid = Ok oid ->
  db_configured env' = true ->
  db_answers env' (n_ops w') = DbOk ->
  exists doc html,
    (get_evaluation py_repr env' oid w').1 = Ok doc /\
    resp !! "id" = Some (VStr oid) /\
    doc !! "id" = resp !! "id" /\
    doc !! "status" = resp !! "status" /\
    doc !! "metrics" = resp !! "metrics" /\
    doc !! "status" = Some (VStr "completed") /\
    doc !! "html_report" = Some (VStr html) /\
    doc !! "error" = Some VNone /\
    doc !! "agent_card_url" = Some (VStr (agent_card_url req)).
Proof.
  intros Hok w' oid Hid Hdb Hans. subst w'.
  destruct (evaluate_ok_inv py_repr env req w resp Hok) as (texts & html & H).
  cbv zeta in H. destruct H as (-> & _ & Hst & _). fold oid in Hst.
  set (d := dict_update (running_doc req)
              (completed_update (dummy_deepeval texts.1 texts.2) html)) in *.
  assert (Hd : store (evaluate py_repr env req w).2 !! oid = Some d)
    by (rewrite Hst; apply lookup_insert_eq).
  destruct (get_evaluation_found py_repr env' oid oid _ d Hdb Hid Hans Hd)
    as (doc & Hget & Hdid & _ & Hother & _).
  exists doc, html. split; [exact Hget|].
  fold oid. unfold completed_reply.
  rewrite (Hother "status"), (Hother "metrics"), (Hother "html_report"), (Hother "error"),
    (Hother "agent_card_url") by discriminate.
  rewrite Hdid.
  subst d. destruct req as [a c]. generalize (dummy_deepeval texts.1 texts.2) as m. intros m.
  repeat split.
Qed.

Lemma evaluate_then_get_evaluation_witness :
  exists doc html,
    (get_evaluation sample_repr env_up sample_oid
       (evaluate sample_repr env_up sample_request w_empty).2).1 = Ok doc /\
    doc !! "status" = Some (VStr "completed") /\
    doc !! "html_report" = Some (VStr html) /\
    doc !! "metrics" = Some (VDict (dummy_deepeval "{}" None)).
Proof.
  destruct (evaluate_then_get_evaluation sample_repr env_up env_up sample_request w_empty
              (completed_reply sample_oid (dummy_deepeval "{}" None))
              eq_refl eq_refl eq_refl eq_refl)
    as (doc & html & H1 & _ & _ & _ & H5 & H6 & H7 & _).
  exists doc, html. split; [exact H1|]. split; [exact H6|]. split; [exact H7|].
  rewrite H5. reflexivity.
Defined.

Lemma dummy_deepeval_truthy (agent_card : string) (chat_logs : option string) :
  truthy (VDict (dummy_deepeval agent_card chat_logs)) = true.
Proof.
  unfold truthy, dummy_deepeval. cbv zeta.
  rewrite bool_decide_eq_false_2 by apply insert_non_empty. reflexivity.
Qed.

(** X14. After a successful [POST /evaluate], the report route answers with
    the page stored at completion, and rendering the stored record afresh
    would give that same page: the cached report cannot drift from the
    record. *)
Theorem evaluate_then_report
    (py_repr : value -> string) (env env' : Env) (req : EvaluationRequest) (w : World)
    (resp : dict) :
  (evaluate py_repr env req w).1 = Ok resp ->
  let w' := (evaluate py_repr env req w).2 in
  let oid := new_oid env (n_ops w) in
  ObjectId oid = Ok oid ->
  db_configured env' = true ->
  db_answers env' (n_ops w') = DbOk ->
  exists d html,
    store w' !! oid = Some d /\
    d !! "html_report" = Some (VStr html) /\
    (get_evaluation_report py_repr env' oid w').1 = Ok html /\
    render_html_report py_repr (report_view d) = Ok html.
Proof.
  intros Hok w' oid Hid Hdb Hans. subst w'.
  destruct (evaluate_ok_inv py_repr env req w resp Hok) as (texts & html & H).
  cbv zeta in H. destruct H as (_ & Hhtml & Hst & _). fold oid in Hst, Hhtml.
  pose proof (dummy_deepeval_truthy texts.1 texts.2) as Htruthy.
  set (m := dummy_deepeval texts.1 texts.2) in *.
  set (d := dict_update (running_doc req) (completed_update m html)) in *.
  assert (Hd : store (evaluate py_repr env req w).2 !! oid = Some d)
    by (rewrite Hst; apply lookup_insert_eq).
  assert (Hcached : d !! "html_report" = Some (VStr html)).
  { subst d. destruct req as [a c]. reflexivity. }
  assert (Hne : html <> EmptyString).
  { apply render_html_report_ok_inv in Hhtml. tauto. }
  exists d, html. split; [exact Hd|]. split; [exact Hcached|]. split.
  - rewrite (get_evaluation_report_found py_repr env' oid oid _ d Hdb Hid Hans Hd).
    rewrite (truthy_nonempty_text d _ html Hcached Hne).
    unfold dict_get. rewrite Hcached. reflexivity.
  - rewrite <- Hhtml. apply render_html_report_ext.
    + subst d. destruct req as [a c]. reflexivity.
    + subst d. destruct req as [a c]. reflexivity.
    + subst d. destruct req as [a c]. reflexivity.
    + assert (Hm : dict_get d "metrics" = VDict m)
        by (subst d; destruct req as [a c]; reflexivity).
      unfold report_view. rewrite lookup_insert_ne by discriminate.
      rewrite lookup_insert_ne by discriminate. rewrite lookup_insert_ne by discriminate.
      rewrite lookup_insert_eq. rewrite Hm. unfold py_or. rewrite Htruthy.
      destruct req as [a c]. reflexivity.
Qed.

Lemma evaluate_then_report_witness :
  exists html,
    (get_evaluation_report sample_repr env_up sample_oid
       (evaluate sample_repr env_up sample_request w_empty).2).1 = Ok html /\
    html <> EmptyString.
Proof.
  destruct (evaluate_then_report sample_repr env_up env_up sample_request w_empty
              (completed_reply sample_oid (dummy_deepeval "{}" None))
              eq_refl eq_refl eq_refl eq_refl)
    as (d & html & _ & _ & H3 & H4).
  exists html. split; [exact H3|].
  apply render_html_report_ok_inv in H4. tauto.
Defined.

(** X15. A [POST /evaluate] never changes or removes a record that was already
    in the collection, whatever happens to the request; it adds at most one
    record. *)
Theorem evaluate_keeps_other_records
    (py_repr : value -> string) (HttpUrl : string -> option string) (env : Env)
    (body : RequestBody) (w : World) :
  let w' := (post_evaluate py_repr HttpUrl env body w).2 in
  (forall oid d, store w !! oid = Some d -> store w' !! oid = Some d) /\
  (size (store w) <= size (store w') <= S (size (store w)))%nat.
Proof.
  cbv zeta. unfold post_evaluate.
  destruct (validate_request HttpUrl body) as [req|]; [|cbn [snd]; split; [auto|lia]].
  pose proof (evaluate_summary py_repr env req w) as H. cbv zeta in H.
  destruct (evaluate py_repr env req w) as [r w']. cbn [fst snd] in *.
  destruct H as (_ & _ & _ & [->|(d & Hfresh & -> & _)]); [split; [auto|lia]|].
  split.
  - intros oid d' Hl. rewrite lookup_insert_ne; [exact Hl|]. congruence.
  - rewrite map_size_insert_None by exact Hfresh. lia.
Qed.

Lemma fetch_default_exhausted_log env url w (msgs : nat -> string) :
  (forall i, (i < 3)%nat -> net env (n_gets w + i) url = Failed (msgs i)) ->
  exists d,
    fetch_default env url w
    = (Raise (HTTPException 502 d),
       (fetch_default env url w).2) /\
    log (fetch_default env url w).2 = log w ++ exhausted_trace url 0.8 10 3.
Proof.
  intros Hfail. destruct (fetch_default env url w) as [r w1] eqn:Hrun. cbn [snd].
  unfold fetch_default in Hrun.
  apply fetch_with_retries_spec in Hrun; [|exact default_backoff_in_range].
  destruct Hrun as (_ & _ & k & _ & [(text & Hk & Hdel & _)|(-> & -> & _ & Hl)]).
  - rewrite (Hfail k) in Hdel by (simpl in Hk; lia). discriminate.
  - eexists. split; [reflexivity|]. exact Hl.
Qed.

(** X16. When the three attempts on the agent card fail, the chat logs are
    never requested: the evaluation sends exactly three requests, all to the
    agent card URL, whether or not a chat URL was given. *)
Theorem agent_failure_skips_chat
    (py_repr : value -> string) (env : Env) (req : EvaluationRequest) (w : World)
    (msgs : nat -> string) :
  db_configured env = true ->
  db_answers env (n_ops w) = DbOk ->
  store w !! new_oid env (n_ops w) = None ->
  (forall i, (i < 3)%nat -> net env (n_gets w + i) (agent_card_url req) = Failed (msgs i)) ->
  requested_urls (new_events w (evaluate py_repr env req w).2)
  = [agent_card_url req; agent_card_url req; agent_card_url req].
Proof.
  intros Hdb Hans Hfresh Hfail.
  destruct (fetch_default_exhausted_log env (agent_card_url req) (after_insert env req w)
              msgs Hfail) as (d & Hrun & Hl).
  assert (Hfetch : fetch_texts env req (after_insert env req w)
                   = (Raise (HTTPException 502 d),
                      (fetch_default env (agent_card_url req) (after_insert env req w)).2)).
  { unfold fetch_texts, bind. rewrite Hrun. reflexivity. }
  rewrite (new_events_app w _
             ([EvInsert (running_doc req)]
              ++ exhausted_trace (agent_card_url req) 0.8 10 3
              ++ [EvUpdate (new_oid env (n_ops w)) failed_update])).
  - reflexivity.
  - rewrite (evaluate_fetch_failed py_repr env req w _ _ Hdb Hans Hfresh Hfetch).
    cbn [snd log]. rewrite Hl. unfold after_insert. cbn [log].
    rewrite <- !app_assoc. reflexivity.
Qed.

Lemma agent_failure_skips_chat_witness :
  requested_urls
    (new_events w_empty
       (evaluate sample_repr env_down
          (mkRequest "http://agent.example/card.json" (Some "http://agent.example/chat.txt"))
          w_empty).2)
  = ["http://agent.example/card.json"; "http://agent.example/card.json";
     "http://agent.example/card.json"].
Proof.
  exact (agent_failure_skips_chat sample_repr env_down
           (mkRequest "http://agent.example/card.json" (Some "http://agent.example/chat.txt"))
           w_empty (fun _ => "timed out") eq_refl eq_refl eq_refl (fun _ _ => eq_refl)).
Defined.

(** X17. One [POST /evaluate] sends at most six requests (three when no chat
    URL is given) and makes at most three store calls, whatever the network
    and the store do. *)
Theorem evaluate_effort_is_bounded
    (py_repr : value -> string) (env : Env) (req : EvaluationRequest) (w : World) :
  let w' := (evaluate py_repr env req w).2 in
  (n_gets w <= n_gets w' <= n_gets w + 6)%nat /\
  (chat_url req = None -> (n_gets w' <= n_gets w + 3)%nat) /\
  (n_ops w <= n_ops w' <= n_ops w + 3)%nat.
Proof.
  cbv zeta. pose proof (evaluate_summary py_repr env req w) as H. cbv zeta in H.
  destruct H as (Hg & Ho & _ & _).
  split; [destruct (chat_url req); lia|].
  split; [intros Hc; rewrite Hc in Hg; lia|lia].
Qed.

Lemma evaluate_effort_is_bounded_witness :
  chat_url sample_request = None /\
  (n_gets (evaluate sample_repr env_down sample_request w_empty).2 <= n_gets w_empty + 3)%nat /\
  (n_ops (evaluate sample_repr env_down sample_request w_empty).2 <= n_ops w_empty + 3)%nat.
Proof.
  destruct (evaluate_effort_is_bounded sample_repr env_down sample_request w_empty)
    as (_ & H3 & _ & Ho).
  split; [reflexivity|]. split; [exact (H3 eq_refl)|exact Ho].
Defined.


Lemma service_record_fields py_repr req oid (d : dict) :
  service_record py_repr req oid d ->
  (d !! "status" = Some (VStr "running") /\ d !! "metrics" = Some VNone /\
   d !! "html_report" = Some VNone /\ d !! "error" = Some VNone)
  \/ (d !! "status" = Some (VStr "completed") /\ is_set d "metrics" = true /\
      is_set d "html_report" = true /\ d !! "error" = Some VNone)
  \/ d !! "status" = Some (VStr "failed").
Proof.
  intros H. destruct req as [a c].
  destruct H as [| |msg|texts html _|texts html msg _].
  - left. repeat split.
  - right. right. reflexivity.
  - right. right. reflexivity.
  - right. left. generalize (dummy_deepeval texts.1 texts.2). intros m. repeat split.
  - right. right. reflexivity.
Qed.

Lemma reachable_service_records py_repr HttpUrl w :
  reachable py_repr HttpUrl w ->
  forall oid d, store w !! oid = Some d -> exists req, service_record py_repr req oid d.
Proof.
  induction 1 as [w Hempty|env body w _ IH|env evaluation_id w _ IH|env evaluation_id w _ IH];
    intros oid d Hl.
  - rewrite Hempty, lookup_empty in Hl. discriminate.
  - unfold post_evaluate in Hl.
    destruct (validate_request HttpUrl body) as [req|]; [|exact (IH oid d Hl)].
    pose proof (evaluate_summary py_repr env req w) as H. cbv zeta in H.
    destruct (evaluate py_repr env req w) as [r w']. cbn [fst snd] in *.
    destruct H as (_ & _ & _ & [Hst|(d' & Hfresh & Hst & Hrec)]); rewrite Hst in Hl.
    + exact (IH oid d Hl).
    + destruct (decide (new_oid env (n_ops w) = oid)) as [<-|Hne].
      * rewrite lookup_insert_eq in Hl. injection Hl as <-. eauto.
      * rewrite lookup_insert_ne in Hl by exact Hne. exact (IH oid d Hl).
  - rewrite get_evaluation_store in Hl. exact (IH oid d Hl).
  - unfold get_report_route in Hl.
    pose proof (get_evaluation_report_store py_repr env evaluation_id w) as Hst.
    destruct (get_evaluation_report py_repr env evaluation_id w) as [r w'].
    cbn [snd] in *. rewrite Hst in Hl. exact (IH oid d Hl).
Qed.

(** X18. In every collection that requests served one after the other can
    produce, the status of a record is [running], [completed] or [failed] and
    never the schema's default [queued]; a running record has no metrics, page
    or error, and a completed one has metrics and page and no error. *)
Theorem stored_status_is_never_queued
    (py_repr : value -> string) (HttpUrl : string -> option string) (w : World)
    (oid : string) (d : dict) :
  reachable py_repr HttpUrl w ->
  store w !! oid = Some d ->
  (d !! "status" = Some (VStr "running") /\ d !! "metrics" = Some VNone /\
   d !! "html_report" = Some VNone /\ d !! "error" = Some VNone)
  \/ (d !! "status" = Some (VStr "completed") /\ is_set d "metrics" = true /\
      is_set d "html_report" = true /\ d !! "error" = Some VNone)
  \/ d !! "status" = Some (VStr "failed").
Proof.
  intros Hreach Hl.
  destruct (reachable_service_records py_repr HttpUrl w Hreach oid d Hl) as [req Hrec].
  exact (service_record_fields py_repr req oid d Hrec).
Qed.

Lemma stored_status_is_never_queued_witness :
  exists d,
    store (post_evaluate sample_repr sample_HttpUrl env_down sample_body w_empty).2 !! sample_oid
    = Some d /\
    d !! "status" = Some (VStr "failed").
Proof.
  assert (Hreach : reachable sample_repr sample_HttpUrl
                     (post_evaluate sample_repr sample_HttpUrl env_down sample_body w_empty).2).
  { apply reach_evaluate. apply reach_empty. reflexivity. }
  assert (Hd : store (post_evaluate sample_repr sample_HttpUrl env_down sample_body
                        w_empty).2 !! sample_oid
               = Some (dict_update (running_doc sample_request) failed_update))
    by reflexivity.
  exists (dict_update (running_doc sample_request) failed_update). split; [exact Hd|].
  destruct (stored_status_is_never_queued sample_repr sample_HttpUrl _ sample_oid _ Hreach Hd)
    as [(H & _)|[(H & _)|H]]; [discriminate H|discriminate H|exact H].
Defined.

Lemma report_view_without_metrics py_repr (d : dict) :
  d !! "metrics" = Some VNone ->
  exists html, render_html_report py_repr (report_view d) = Ok html.
Proof.
  intros Hm. apply render_html_report_total. unfold metrics_ok, report_view.
  rewrite lookup_insert_ne by discriminate. rewrite lookup_insert_ne by discriminate.
  rewrite lookup_insert_ne by discriminate. rewrite lookup_insert_eq.
  unfold dict_get. rewrite Hm. simpl. unfold group_ok. rewrite !lookup_empty. auto.
Qed.

Lemma service_record_report py_repr req oid (d : dict) :
  service_record py_repr req oid d ->
  exists html,
    (if truthy (dict_get d "html_report")
     then HTMLResponse (dict_get d "html_report")
     else render_html_report py_repr (report_view d)) = Ok html /\
    html <> EmptyString.
Proof.
  intros H. destruct req as [a c].
  destruct H as [| |msg|texts html Hhtml|texts html msg Hhtml].
  1-3: match goal with |- context [report_view ?d] =>
         destruct (report_view_without_metrics py_repr d eq_refl) as [html Hhtml];
         exists html; split; [exact Hhtml|];
         apply render_html_report_ok_inv in Hhtml; tauto
       end.
  all: exists html; apply render_html_report_ok_inv in Hhtml; destruct Hhtml as [_ Hne].
  all: match goal with |- context [dict_get ?d "html_report"] =>
         change (dict_get d "html_report") with (VStr html) end.
  all: assert (Ht : truthy (VStr html) = true)
         by (simpl; destruct (String.eqb_spec html EmptyString); [contradiction|reflexivity]).
  all: rewrite Ht; split; [reflexivity|exact Hne].
Qed.

(** X19. For every record that the service itself has stored, the report route
    answers with a non-empty page once the lookup goes through: a running or
    failed record, whose [metrics] is [None], is rendered with placeholders
    because the route passes [{}] for it. *)
Theorem report_route_serves_every_service_record
    (py_repr : value -> string) (HttpUrl : string -> option string) (env : Env)
    (evaluation_id oid : string) (w : World) (d : dict) :
  reachable py_repr HttpUrl w ->
  store w !! oid = Some d ->
  db_configured env = true ->
  ObjectId evaluation_id = Ok oid ->
  db_answers env (n_ops w) = DbOk ->
  exists html,
    (get_evaluation_report py_repr env evaluation_id w).1 = Ok html /\
    html <> EmptyString /\
    status_code (get_report_route py_repr env evaluation_id w).1 = 200.
Proof.
  intros Hreach Hd Hdb Hid Hans.
  destruct (reachable_service_records py_repr HttpUrl w Hreach oid d Hd) as [req Hrec].
  destruct (service_record_report py_repr req oid d Hrec) as (html & Hr & Hne).
  assert (Hget : (get_evaluation_report py_repr env evaluation_id w).1 = Ok html).
  { rewrite (get_evaluation_report_found py_repr env evaluation_id oid w d Hdb Hid Hans Hd).
    exact Hr. }
  exists html. split; [exact Hget|]. split; [exact Hne|].
  unfold get_report_route.
  destruct (get_evaluation_report py_repr env evaluation_id w) as [r w'].
  cbn [fst] in *. subst r. reflexivity.
Qed.

Lemma report_route_serves_every_service_record_witness :
  exists html,
    (get_evaluation_report sample_repr env_up sample_oid
       (post_evaluate sample_repr sample_HttpUrl env_down sample_body w_empty).2).1 = Ok html /\
    html <> EmptyString.
Proof.
  assert (Hreach : reachable sample_repr sample_HttpUrl
                     (post_evaluate sample_repr sample_HttpUrl env_down sample_body w_empty).2).
  { apply reach_evaluate. apply reach_empty. reflexivity. }
  destruct (report_route_serves_every_service_record sample_repr sample_HttpUrl env_up
              sample_oid sample_oid _
              (dict_update (running_doc sample_request) failed_update)
              Hreach eq_refl eq_refl eq_refl eq_refl) as (html & H1 & H2 & _).
  exists html. split; [exact H1|exact H2].
Defined.

Lemma load_evaluation_world env evaluation_id w :
  let w' := (load_evaluation env evaluation_id w).2 in
  w' = w \/
  exists oid, ObjectId evaluation_id = Ok oid /\
              w' = mkWorld (store w) (n_gets w) (S (n_ops w)) (log w ++ [EvFind oid]).
Proof.
  cbv zeta. unfold load_evaluation.
  destruct (negb (db_configured env)); [left; reflexivity|].
  destruct (ObjectId evaluation_id) as [oid|e]; [|left; reflexivity].
  right. exists oid. split; [reflexivity|].
  unfold bind, find_one, store_call. cbv beta iota zeta.
  destruct (db_answers env (n_ops w)) as [|[|] msg]; try reflexivity.
  destruct (store w !! oid) as [d|]; simpl; [|reflexivity].
  destruct (negb (bool_decide (<["_id":=VOid oid]> d = ∅))); reflexivity.
Qed.

(** X20. The two read handlers only ever look up: whatever the id and the
    store's answer, the world after them is the world before, or differs by
    one logged and counted [find_one] on the parsed id.  They never write to
    the collection and never touch the network. *)
Theorem read_handlers_only_look_up
    (py_repr : value -> string) (env : Env) (evaluation_id : string) (w : World) :
  let looked_up (w' : World) :=
    w' = w \/
    exists oid, ObjectId evaluation_id = Ok oid /\
                w' = mkWorld (store w) (n_gets w) (S (n_ops w)) (log w ++ [EvFind oid]) in
  looked_up (get_evaluation py_repr env evaluation_id w).2 /\
  looked_up (get_evaluation_report py_repr env evaluation_id w).2.
Proof.
  cbv zeta. pose proof (load_evaluation_world env evaluation_id w) as H. cbv zeta in H.
  unfold get_evaluation, get_evaluation_report, bind, lift, ret.
  destruct (load_evaluation env evaluation_id w) as [[d|e] w1]; cbn [snd] in *.
  - split; [exact H|].
    destruct (negb (truthy (dict_get d "html_report"))); [|exact H].
    destruct (render_html_report py_repr _); exact H.
  - split; exact H.
Qed.



(** X22. [POST /evaluate] answers 200 exactly when the store is configured, the
    insert is accepted under a fresh id, every fetch delivers and the
    completing update is accepted; the metrics of the reply are then the
    scorer's output on the fetched texts. *)
Theorem evaluate_succeeds_iff
    (py_repr : value -> string) (env : Env) (req : EvaluationRequest) (w : World) :
  let oid := new_oid env (n_ops w) in
  ((exists resp, (evaluate py_repr env req w).1 = Ok resp) <->
   (db_configured env = true /\
    db_answers env (n_ops w) = DbOk /\
    store w !! oid = None /\
    (exists texts, (fetch_texts env req (after_insert env req w)).1 = Ok texts) /\
    db_answers env (S (n_ops w)) = DbOk)) /\
  (forall resp texts,
     (evaluate py_repr env req w).1 = Ok resp ->
     (fetch_texts env req (after_insert env req w)).1 = Ok texts ->
     resp = completed_reply oid (dummy_deepeval texts.1 texts.2)).
Proof.
  cbv zeta.
  destruct (db_configured env) eqn:Hdb; cycle 1.
  { unfold evaluate. rewrite Hdb. simpl. split; [split|].
    - intros [resp H]. discriminate.
    - intros (H & _). discriminate.
    - intros resp texts H. discriminate. }
  destruct (store w !! new_oid env (n_ops w)) as [d0|] eqn:Hfresh.
  { assert (Hno : forall resp, (evaluate py_repr env req w).1 <> Ok resp).
    { intros resp. unfold evaluate, bind, insert_one, store_call. rewrite Hdb. cbv beta zeta.
      change (negb true) with false. cbv beta iota. rewrite Hfresh.
      destruct (db_answers env (n_ops w)) as [|[|] msg]; discriminate. }
    split; [split|].
    - intros [resp H]. destruct (Hno resp H).
    - intros (_ & _ & H & _). discriminate.
    - intros resp texts H. destruct (Hno resp H). }
  destruct (db_answers env (n_ops w)) as [|applied msg] eqn:Hans; cycle 1.
  { assert (Hno : forall resp, (evaluate py_repr env req w).1 <> Ok resp).
    { intros resp. unfold evaluate, bind, insert_one, store_call. rewrite Hdb. cbv beta zeta.
      change (negb true) with false. cbv beta iota. rewrite Hfresh, Hans.
      destruct applied; discriminate. }
    split; [split|].
    - intros [resp H]. destruct (Hno resp H).
    - intros (_ & H & _). discriminate.
    - intros resp texts H. destruct (Hno resp H). }
  destruct (fetch_texts env req (after_insert env req w)) as [[texts|e] w2] eqn:Hfetch.
  - destruct (evaluate_fetched py_repr env req w texts w2 Hdb Hans Hfresh Hfetch)
      as (html & _ & ->).
    destruct (db_answers env (S (n_ops w))) as [|applied msg]; cbn [fst].
    + split; [split|].
      * intros _. repeat split; eauto.
      * intros _. eauto.
      * intros resp texts' H H'. injection H as <-. injection H' as <-. reflexivity.
    + cbv zeta. cbn [fst]. split; [split|].
      * intros [resp H].
        destruct (db_answers env (S (S (n_ops w)))) as [|? ?]; discriminate.
      * intros (_ & _ & _ & _ & H). discriminate.
      * intros resp texts' H.
        destruct (db_answers env (S (S (n_ops w)))) as [|? ?]; discriminate.
  - rewrite (evaluate_fetch_failed py_repr env req w e w2 Hdb Hans Hfresh Hfetch).
    cbn [fst]. split; [split|].
    + intros [resp H]. destruct (db_answers env (S (n_ops w))) as [|? ?]; discriminate.
    + intros (_ & _ & _ & [texts H] & _). discriminate.
    + intros resp texts H. destruct (db_answers env (S (n_ops w))) as [|? ?]; discriminate.
Qed.

Lemma evaluate_succeeds_iff_witness :
  exists resp, (evaluate sample_repr env_up sample_request w_empty).1 = Ok resp.
Proof.
  apply (proj1 (evaluate_succeeds_iff sample_repr env_up sample_request w_empty)).
  split; [reflexivity|]. split; [reflexivity|]. split; [reflexivity|].
  split; [exists ("{}", None); reflexivity|reflexivity].
Defined.


(** ** Diagnostics *)

(** X23. [GET /test] reports at most ten collection names: the first ten that
    the store lists, in order, and none when there is no store handle or the
    listing raises. *)
Theorem test_database_collections (db : option Database) (getenv : string -> option string) :
  exists names : list string,
    test_database db getenv !! "collections" = Some (VList (VStr <$> names)) /\
    (length names <= 10)%nat /\
    (forall d cs, db = Some d -> list_collection_names d = Listed cs -> names = take 10 cs) /\
    (db = None -> names = []) /\
    (forall d msg, db = Some d -> list_collection_names d = ListingRaises msg -> names = []).
Proof.
  destruct db as [[nm [cs|msg]]|].
  - exists (take 10 cs). split; [reflexivity|]. split; [rewrite length_take; lia|].
    split; [|split].
    + intros d cs' Hd Hl. injection Hd as <-. simpl in Hl. congruence.
    + discriminate.
    + intros d msg Hd Hl. injection Hd as <-. discriminate.
  - exists []. split; [reflexivity|]. split; [simpl; lia|].
    split; [|split].
    + intros d cs Hd Hl. injection Hd as <-. discriminate.
    + discriminate.
    + reflexivity.
  - exists []. split; [reflexivity|]. split; [simpl; lia|].
    split; [|split]; [discriminate|reflexivity|reflexivity].
Qed.

Lemma test_database_collections_witness :
  exists names : list string,
    test_database (Some sample_database) sample_getenv !! "collections"
    = Some (VList (VStr <$> names)) /\
    names = ["c01"; "c02"; "c03"; "c04"; "c05"; "c06"; "c07"; "c08"; "c09"; "c10"].
Proof.
  destruct (test_database_collections (Some sample_database) sample_getenv)
    as (names & H1 & _ & H3 & _).
  exists names. split; [exact H1|].
  exact (H3 sample_database _ eq_refl eq_refl).
Defined.


(** X24. The [database_url] and [database_name] that [GET /test] reports say
    only whether the environment variables [DATABASE_URL] and [DATABASE_NAME]
    are set to a non-empty text: what lines 236-237 wrote from the store
    handle, its name included, is always overwritten. *)
Theorem test_database_reports_environment
    (db : option Database) (getenv : string -> option string) :
  test_database db getenv !! "database_url"
  = Some (VStr (if env_set getenv "DATABASE_URL" then "✅ Set" else "❌ Not Set")) /\
  test_database db getenv !! "database_name"
  = Some (VStr (if env_set getenv "DATABASE_NAME" then "✅ Set" else "❌ Not Set")) /\
  forall db', test_database db getenv !! "database_name"
              = test_database db' getenv !! "database_name" /\
              test_database db getenv !! "database_url"
              = test_database db' getenv !! "database_url".
Proof.
  assert (H : forall b,
             test_database b getenv !! "database_url"
             = Some (VStr (if env_set getenv "DATABASE_URL" then "✅ Set" else "❌ Not Set")) /\
             test_database b getenv !! "database_name"
             = Some (VStr (if env_set getenv "DATABASE_NAME" then "✅ Set" else "❌ Not Set"))).
  { intros [[nm [cs|msg]]|]; split; reflexivity. }
  destruct (H db) as [H1 H2]. split; [exact H1|]. split; [exact H2|].
  intros db'. destruct (H db') as [H1' H2']. rewrite H1, H2, H1', H2'. split; reflexivity.
Qed.

Lemma py_prefix_length (n : nat) (s : string) : (String.length (py_prefix n s) <= n)%nat.
Proof.
  unfold py_prefix. revert s. induction n as [|n IH]; intros [|c s]; simpl; try lia.
  specialize (IH s). lia.
Qed.

(** X25. When listing the collections raises, [GET /test] still answers: it
    reports the store as connected, with no collections, and quotes at most
    the first 50 characters of the exception's message. *)
Theorem test_database_quotes_listing_error
    (d : Database) (getenv : string -> option string) (msg : string) :
  list_collection_names d = ListingRaises msg ->
  exists quoted,
    test_database (Some d) getenv !! "database"
    = Some (VStr ("⚠️  Connected but Error: " +:+ quoted)) /\
    quoted = py_prefix 50 msg /\
    (String.length quoted <= 50)%nat /\
    (String.length msg <= 50 -> quoted = msg)%nat /\
    test_database (Some d) getenv !! "connection_status" = Some (VStr "Connected") /\
    test_database (Some d) getenv !! "collections" = Some (VList []).
Proof.
  intros Hl. destruct d as [nm l]. simpl in Hl. subst l.
  exists (py_prefix 50 msg). split; [reflexivity|]. split; [reflexivity|].
  split; [apply py_prefix_length|]. split; [|split; reflexivity].
  intros Hlen. unfold py_prefix.
  assert (Hgen : forall n s, (String.length s <= n)%nat -> substring 0 n s = s).
  { induction n as [|n IH]; intros [|c s] Hs; simpl in *; try reflexivity; try lia.
    rewrite IH by lia. reflexivity. }
  apply Hgen. exact Hlen.
Qed.

Lemma test_database_quotes_listing_error_witness :
  exists quoted,
    test_database (Some (mkDatabase None (ListingRaises "not authorized"))) sample_getenv
      !! "database"
    = Some (VStr ("⚠️  Connected but Error: " +:+ quoted)) /\
    (String.length quoted <= 50)%nat.
Proof.
  destruct (test_database_quotes_listing_error
              (mkDatabase None (ListingRaises "not authorized")) sample_getenv
              "not authorized" eq_refl) as (quoted & H1 & _ & H3 & _).
  exists quoted. split; [exact H1|exact H3].
Defined.

Example test_database_sample :
  test_database (Some sample_database) sample_getenv !! "collections"
  = Some (VList (VStr <$> ["c01"; "c02"; "c03"; "c04"; "c05"; "c06"; "c07"; "c08"; "c09"; "c10"]))
  /\ test_database (Some sample_database) sample_getenv !! "database_name"
     = Some (VStr "❌ Not Set").
Proof. split; reflexivity. Qed.
